(** * Loan approval agent: the decision pipeline of [loanagent.py]

    A shallow embedding of [LoanAgent] (module [loanagent]) and of the
    summary computation of [loan_runner], together with the properties of
    the pipeline that the specification states.

    Python code runs in the monad [Py]: a computation takes the world
    (console output, the documents read so far, the requests sent to the
    text-generation service, the heap of dict objects) and gives an outcome,
    a returned value or a raised exception, with the world it leaves behind.
    The third-party libraries the agent calls (PyPDFLoader, ChatOpenAI,
    PydanticOutputParser, pydantic's coercion of scalars) are the fields of
    the record [Libs]; the theorems hold for every such record. *)

From Stdlib Require Import ZArith String Ascii List Bool Lia.
From Stdlib Require Import PrimFloat FloatOps SpecFloat.
From stdpp Require Import gmap strings list pretty.
Import ListNotations.

Local Open Scope string_scope.
Local Open Scope Z_scope.

(** ** Python values *)

(** The values that flow through the pipeline: the scalars of the applicant
    mapping, and the lists and dicts of a parsed service response.  A [str]
    is a Rocq string whose characters stand for the code points 0-255; a
    [float] is a binary64 number; a nested dict lists its items in insertion
    order. *)
#[warnings="-register-all"]
Inductive PyVal : Type :=
| PNone
| PBool (b : bool)
| PInt (z : Z)
| PFloat (f : float)
| PStr (s : string)
| PList (l : list PyVal)
| PDict (d : list (string * PyVal)).

(** A dict literal, items in the order they are written. *)
Abbreviation PyDict := (list (string * PyVal)).

(** [d.get(key)] on a dict written as its items: the first item with that key. *)
Fixpoint dict_get {V : Type} (key : string) (d : list (string * V)) : option V :=
  match d with
  | [] => None
  | (k, v) :: rest => if String.eqb k key then Some v else dict_get key rest
  end.

Definition dict_keys {V : Type} (d : list (string * V)) : list string := map fst d.

(** ** Exceptions *)

(** Instances of Python's [Exception] that the pipeline can meet.
    [ValidationError] is pydantic's, with the model's name and the offending
    fields; [OutputParserException] is langchain's; [LibraryError] stands
    for any other exception class raised inside a third-party call. *)
Inductive Exn : Type :=
| ValueError (msg : string)
| TypeError (msg : string)
| KeyError (key : string)
| ZeroDivisionError (msg : string)
| ValidationError (model : string) (fields : list string)
| OutputParserException (msg : string)
| LibraryError (cls : string) (msg : string).

Inductive Outcome (A : Type) : Type :=
| Return (a : A)
| Raise (e : Exn).
Arguments Return {A} a.
Arguments Raise {A} e.

(** ** The world *)

Inductive Role : Type := system | human.

(** One message of a formatted chat prompt. *)
Record Message : Type := mkMessage { role : Role; content : string }.

(** What a run can observe or change outside its own variables. *)
Record World : Type := mkWorld {
  stdout : list string;                    (* lines written by [print] *)
  pdf_loads : list string;                 (* paths handed to [loader.load()] *)
  llm_requests : list (list Message);      (* prompts sent by [llm.invoke] *)
  heap : gmap nat (gmap string PyVal)      (* the dict objects callers hold *)
}.

Definition Py (A : Type) : Type := World -> Outcome A * World.

Definition ret {A} (a : A) : Py A := fun w => (Return a, w).

Definition raise {A} (e : Exn) : Py A := fun w => (Raise e, w).

Definition bind {A B} (c : Py A) (k : A -> Py B) : Py B :=
  fun w => match c w with
           | (Return a, w') => k a w'
           | (Raise e, w') => (Raise e, w')
           end.

(** [try: body except Exception as e: handler e] *)
Definition try_except {A} (body : Py A) (handler : Exn -> Py A) : Py A :=
  fun w => match body w with
           | (Return a, w') => (Return a, w')
           | (Raise e, w') => handler e w'
           end.

(** An outcome computed without touching the world. *)
Definition lift {A} (o : Outcome A) : Py A := fun w => (o, w).

Declare Scope py_scope.
Delimit Scope py_scope with py.
Notation "x <- c ;; k" := (bind c (fun x => k))
  (at level 100, c at next level, right associativity) : py_scope.
Notation "c ;; k" := (bind c (fun _ => k))
  (at level 100, right associativity) : py_scope.
Local Open Scope py_scope.

(** The three ways a run leaves a trace in the world. *)
Definition log_stdout (line : string) (w : World) : World :=
  {| stdout := stdout w ++ [line]; pdf_loads := pdf_loads w;
     llm_requests := llm_requests w; heap := heap w |}.

Definition log_pdf_load (path : string) (w : World) : World :=
  {| stdout := stdout w; pdf_loads := pdf_loads w ++ [path];
     llm_requests := llm_requests w; heap := heap w |}.

Definition log_llm_request (prompt : list Message) (w : World) : World :=
  {| stdout := stdout w; pdf_loads := pdf_loads w;
     llm_requests := llm_requests w ++ [prompt]; heap := heap w |}.

Definition print (line : string) : Py unit :=
  fun w => (Return tt, log_stdout line w).

(** ** Text of numbers *)

(** The double quote character, and one-character strings. *)
Definition dq : string := String "034"%char "".
Definition nl : string := String "010"%char "".

(** [str(n)] for an integer. *)
Definition str_of_int (z : Z) : string := pretty z.

Fixpoint repeat_string (n : nat) (s : string) : string :=
  match n with
  | O => ""
  | S n' => s +:+ repeat_string n' s
  end.

(** A binary64 number as Python's [float] has it, decoded into sign,
    integral significand and binary exponent: [(-1)^s * m * 2^e]. *)
Definition float_decode (f : float) : spec_float := Prim2SF f.

(** The decimal exponent of the positive rational [n / d]: the [g] with
    [10^g <= n/d < 10^(g+1)], found from a logarithm estimate that the loop
    corrects. *)
Fixpoint log10_adjust (fuel : nat) (n d g : Z) : Z :=
  match fuel with
  | O => g
  | S fuel' =>
      if n * 10 ^ Z.max (- g) 0 <? d * 10 ^ Z.max g 0
      then log10_adjust fuel' n d (g - 1)
      else if d * 10 ^ Z.max (g + 1) 0 <=? n * 10 ^ Z.max (- (g + 1)) 0
           then log10_adjust fuel' n d (g + 1)
           else g
  end.

Definition floor_log10 (m e : Z) : Z :=
  let n := m * 2 ^ Z.max e 0 in
  let d := 2 ^ Z.max (- e) 0 in
  log10_adjust 700 n d ((Z.log2 n - Z.log2 d) * 30103 / 100000).

(** The shortest decimal [d * 10^q] that reads back as the float
    [m * 2^e], nearest to it among the shortest: for k = 1, 2, ... digits,
    the two k-digit decimals around the float are tried against the
    interval of reals that round to it (closed when [m] is even, as ties
    go to the even significand). *)
Fixpoint shortest_decimal (fuel : nat) (k m e g : Z) : Z * Z :=
  let q := g - (k - 1) in
  let e2 := e - 2 in
  let den := 2 ^ Z.max (- e2) 0 * 10 ^ Z.max q 0 in
  let sc := fun x : Z => x * 2 ^ Z.max e2 0 * 10 ^ Z.max (- q) 0 in
  let v := sc (4 * m) in
  let hi := sc (4 * m + 2) in
  let lo := sc (if (m =? 2 ^ 52) && (-1074 <? e) then 4 * m - 1 else 4 * m - 2) in
  let inside := fun d : Z =>
    if Z.even m then (lo <=? d * den) && (d * den <=? hi)
    else (lo <? d * den) && (d * den <? hi) in
  let d0 := v / den in
  let d1 := d0 + 1 in
  let nearest :=
    match 2 * v ?= (2 * d0 + 1) * den with
    | Lt => d0
    | Gt => d1
    | Eq => if Z.even d0 then d0 else d1
    end in
  match fuel with
  | O => (nearest, q)
  | S fuel' =>
      if inside d0 && inside d1 then (nearest, q)
      else if inside d0 then (d0, q)
      else if inside d1 then (d1, q)
      else shortest_decimal fuel' (k + 1) m e g
  end.

Fixpoint strip_zeros (fuel : nat) (d q : Z) : Z * Z :=
  match fuel with
  | O => (d, q)
  | S fuel' => if (d mod 10 =? 0) && negb (d =? 0)
               then strip_zeros fuel' (d / 10) (q + 1) else (d, q)
  end.

(** The digits and the position of the decimal point, [0.digits * 10^decpt]. *)
Definition float_digits (m e : Z) : string * Z :=
  let '(d, q) := shortest_decimal 16 1 m e (floor_log10 m e) in
  let '(d', q') := strip_zeros 400 d q in
  let digits := str_of_int d' in
  (digits, Z.of_nat (String.length digits) + q').

(** [repr(x)] for a finite non-zero float, from its digits: positional
    notation when [-4 < decpt <= 16], exponent notation otherwise. *)
Definition repr_of_digits (digits : string) (decpt : Z) : string :=
  let n := Z.of_nat (String.length digits) in
  if (decpt <=? -4) || (16 <? decpt) then
    let x := decpt - 1 in
    let mant := match digits with
                | String c "" => String c ""
                | String c rest => String c ("." +:+ rest)
                | "" => ""
                end in
    let ex := str_of_int (Z.abs x) in
    mant +:+ "e" +:+ (if x <? 0 then "-" else "+")
         +:+ (if Z.abs x <? 10 then "0" +:+ ex else ex)
  else if decpt <=? 0 then
    "0." +:+ repeat_string (Z.to_nat (- decpt)) "0" +:+ digits
  else if n <=? decpt then
    digits +:+ repeat_string (Z.to_nat (decpt - n)) "0" +:+ ".0"
  else
    substring 0 (Z.to_nat decpt) digits +:+ "."
      +:+ substring (Z.to_nat decpt) (Z.to_nat (n - decpt)) digits.

(** [float.__repr__] as [json.dumps] calls it (with [allow_nan] left on,
    the non-finite values are written in JavaScript's spelling). *)
Definition json_float (f : float) : string :=
  match float_decode f with
  | S754_zero s => if s then "-0.0" else "0.0"
  | S754_infinity s => if s then "-Infinity" else "Infinity"
  | S754_nan => "NaN"
  | S754_finite s m e =>
      let '(digits, decpt) := float_digits (Zpos m) e in
      (if s then "-" else "") +:+ repr_of_digits digits decpt
  end.

(** [format(x, ".<p>f")]: [p] digits after the point, the exact binary
    value rounded half to even. *)
Definition format_fixed (p : nat) (f : float) : string :=
  match float_decode f with
  | S754_zero s =>
      (if s then "-" else "") +:+ "0"
        +:+ (match p with O => "" | _ => "." +:+ repeat_string p "0" end)
  | S754_infinity s => if s then "-inf" else "inf"
  | S754_nan => "nan"
  | S754_finite s m e =>
      let n := Zpos m * 2 ^ Z.max e 0 * 10 ^ Z.of_nat p in
      let d := 2 ^ Z.max (- e) 0 in
      let q := n / d in
      let r := n mod d in
      let t := match 2 * r ?= d with
               | Lt => q
               | Gt => q + 1
               | Eq => if Z.even q then q else q + 1
               end in
      let frac := str_of_int (t mod 10 ^ Z.of_nat p) in
      (if s then "-" else "") +:+ str_of_int (t / 10 ^ Z.of_nat p)
        +:+ (match p with
             | O => ""
             | _ => "." +:+ repeat_string (p - String.length frac) "0" +:+ frac
             end)
  end.

(** ** JSON text *)

Definition hex_digit (n : N) : ascii :=
  if (n <? 10)%N then ascii_of_N (48 + n) else ascii_of_N (87 + n).

(** One character inside a JSON string, [ensure_ascii] left on: quote and
    backslash are escaped, the usual control characters have their short
    forms, and anything else outside space..tilde is written as a
    four-digit lower-case [\u] escape. *)
Definition json_escape_char (c : ascii) : string :=
  let n := N_of_ascii c in
  if (n =? 34)%N then String "\" dq
  else if (n =? 92)%N then "\\"
  else if (n =? 10)%N then "\n"
  else if (n =? 13)%N then "\r"
  else if (n =? 9)%N then "\t"
  else if (n =? 8)%N then "\b"
  else if (n =? 12)%N then "\f"
  else if ((n <? 32) || (126 <? n))%N
       then "\u00" +:+ String (hex_digit (n / 16)) (String (hex_digit (n mod 16)) "")
       else String c "".

Fixpoint json_escape (s : string) : string :=
  match s with
  | "" => ""
  | String c rest => json_escape_char c +:+ json_escape rest
  end.

Definition json_string (s : string) : string := dq +:+ json_escape s +:+ dq.

(** A line break followed by the indentation of nesting depth [level],
    [indent] spaces per level. *)
Definition newline_indent (indent level : nat) : string :=
  nl +:+ repeat_string (indent * level) " ".

(** The text [json.dumps(v, indent=indent)] writes for [v]: an empty
    container on one line, any other with one item per line; items are
    separated by a comma, a key from its value by a colon and a space.
    An integer is written by [int.__repr__], which refuses some integers
    (see [json_dumps]): this is the text when it refuses none of [v]. *)
Fixpoint json_write (indent level : nat) (v : PyVal) {struct v} : string :=
  match v with
  | PNone => "null"
  | PBool true => "true"
  | PBool false => "false"
  | PInt z => str_of_int z
  | PFloat f => json_float f
  | PStr s => json_string s
  | PList [] => "[]"
  | PList l =>
      "[" +:+ newline_indent indent (S level)
        +:+ String.concat ("," +:+ newline_indent indent (S level))
              (map (json_write indent (S level)) l)
        +:+ newline_indent indent level +:+ "]"
  | PDict [] => "{}"
  | PDict d =>
      "{" +:+ newline_indent indent (S level)
        +:+ String.concat ("," +:+ newline_indent indent (S level))
              (map (fun kv : string * PyVal =>
                      json_string (fst kv) +:+ ": "
                        +:+ json_write indent (S level) (snd kv)) d)
        +:+ newline_indent indent level +:+ "}"
  end.

Definition json_text (v : PyVal) (indent : nat) : string :=
  json_write indent 0 v.

(** The interpreter's limit on the decimal digits of an integer it turns
    into a string ([sys.int_max_str_digits], left at its default). *)
Definition int_max_str_digits : Z := 4300.

(** Whether [int.__repr__] writes [z]: it has at most
    [int_max_str_digits] decimal digits, the sign not counted. *)
Definition int_repr_allowed (z : Z) : bool :=
  Z.abs z <? 10 ^ int_max_str_digits.

Definition int_repr_error : Exn :=
  ValueError ("Exceeds the limit (4300 digits) for integer string conversion; "
              +:+ "use sys.set_int_max_str_digits() to increase the limit").

(** Whether every integer inside [v] can be written. *)
Fixpoint ints_allowed (v : PyVal) {struct v} : bool :=
  match v with
  | PInt z => int_repr_allowed z
  | PList l => forallb ints_allowed l
  | PDict d => forallb (fun kv : string * PyVal => ints_allowed (snd kv)) d
  | _ => true
  end.

(** [json.dumps(v, indent=indent)]: the text of [v], or the [ValueError] of
    the first integer in it that has too many digits to be written. *)
Definition json_dumps (v : PyVal) (indent : nat) : Outcome string :=
  if ints_allowed v then Return (json_text v indent) else Raise int_repr_error.

(** ** Third-party libraries *)

(** The configuration a [ChatOpenAI] client is built with. *)
Record ChatOpenAI : Type := mkChatOpenAI {
  openai_api_key : string;
  model_name : string;
  temperature : Z
}.

(** The declared type of a pydantic field. *)
Inductive FieldType : Type := TStr | TFloat | TInt | TBool | TList (t : FieldType).

Record FieldInfo : Type := mkField {
  field_name : string;
  field_type : FieldType;
  field_description : option string
}.

(** What a pydantic model class declares: its name and its fields, in order. *)
Record ModelSchema : Type := mkSchema {
  schema_title : string;
  schema_fields : list FieldInfo
}.

(** The behaviour of the libraries the agent calls.  Each field is what
    the named call returns or raises; none of them is code of this
    repository, so the pipeline is stated for every [Libs]. *)
Record Libs : Type := mkLibs {
  (* [PyPDFLoader(path).load()]: the [page_content] of each document *)
  PyPDFLoader_load : string -> Outcome (list string);
  (* [ChatOpenAI(...).invoke(messages).content] *)
  ChatOpenAI_invoke : ChatOpenAI -> list Message -> Outcome string;
  (* the JSON value [PydanticOutputParser] reads out of a completion *)
  parse_json : string -> Outcome PyVal;
  (* the text of [get_format_instructions()] for a model *)
  format_instructions_text : ModelSchema -> string;
  (* pydantic's coercion of a value to a field of type str, float, int, bool *)
  coerce_str : PyVal -> option string;
  coerce_float : PyVal -> option float;
  coerce_int : PyVal -> option Z;
  coerce_bool : PyVal -> option bool;
  (* [str(e)] of a pydantic [ValidationError] *)
  str_ValidationError : string -> list string -> string;
  (* the message of the [OutputParserException] for a completion that
     fails validation against a model *)
  parse_failure_message : string -> string -> list string -> string
}.

(** [str(e)] *)
Definition str_exn (L : Libs) (e : Exn) : string :=
  match e with
  | ValueError msg => msg
  | TypeError msg => msg
  | KeyError key => "'" +:+ key +:+ "'"
  | ZeroDivisionError msg => msg
  | ValidationError model fields => str_ValidationError L model fields
  | OutputParserException msg => msg
  | LibraryError _ msg => msg
  end.

(** ** Data models *)

Record LoanApplication : Type := mkLoanApplication {
  applicantId : string;
  requestedAmount : float;
  annualIncome : float;
  monthlyDebt : float;
  creditScore : Z;
  employmentMonths : Z;
  isFirstTimeBuyer : bool;
  isSelfEmployed : bool
}.

Record LoanDecision : Type := mkLoanDecision {
  decision : string;
  reasoning : string;
  riskLevel : string;
  appliedRules : list string
}.

Definition LoanDecision_schema : ModelSchema :=
  {| schema_title := "LoanDecision";
     schema_fields :=
       [ mkField "decision" TStr (Some "Either 'approved' or 'denied'");
         mkField "reasoning" TStr (Some "Detailed explanation of the decision");
         mkField "riskLevel" TStr (Some "Risk level: 'low', 'medium', or 'high'");
         mkField "appliedRules" (TList TStr) (Some "List of rules that were applied") ] |}.

(** A required field: present and accepted by the coercion of its type. *)
Definition get_field {A} (coerce : PyVal -> option A)
    (lookup : string -> option PyVal) (name : string) : option A :=
  match lookup name with
  | Some v => coerce v
  | None => None
  end.

(** The field's name when it is rejected, for the error report. *)
Definition offending {A} (name : string) (o : option A) : list string :=
  match o with
  | Some _ => []
  | None => [name]
  end.

(** The constructor [LoanApplication], called with the items of a mapping
    as keyword arguments: every declared field is required, there is no
    [Field] constraint and no validator on any of them, and keys that are
    not fields are ignored. *)
Definition LoanApplication_new (L : Libs) (kwargs : gmap string PyVal)
    : Outcome LoanApplication :=
  let f := fun name : string => kwargs !! name in
  let f1 := get_field (coerce_str L) f "applicantId" in
  let f2 := get_field (coerce_float L) f "requestedAmount" in
  let f3 := get_field (coerce_float L) f "annualIncome" in
  let f4 := get_field (coerce_float L) f "monthlyDebt" in
  let f5 := get_field (coerce_int L) f "creditScore" in
  let f6 := get_field (coerce_int L) f "employmentMonths" in
  let f7 := get_field (coerce_bool L) f "isFirstTimeBuyer" in
  let f8 := get_field (coerce_bool L) f "isSelfEmployed" in
  match f1, f2, f3, f4, f5, f6, f7, f8 with
  | Some v1, Some v2, Some v3, Some v4, Some v5, Some v6, Some v7, Some v8 =>
      Return (mkLoanApplication v1 v2 v3 v4 v5 v6 v7 v8)
  | _, _, _, _, _, _, _, _ =>
      Raise (ValidationError "LoanApplication"
               (offending "applicantId" f1 ++ offending "requestedAmount" f2
                ++ offending "annualIncome" f3 ++ offending "monthlyDebt" f4
                ++ offending "creditScore" f5 ++ offending "employmentMonths" f6
                ++ offending "isFirstTimeBuyer" f7 ++ offending "isSelfEmployed" f8)%list)
  end.

(** [application.dict()]: the fields in declaration order. *)
Definition LoanApplication_dict (a : LoanApplication) : PyDict :=
  [ ("applicantId", PStr (applicantId a));
    ("requestedAmount", PFloat (requestedAmount a));
    ("annualIncome", PFloat (annualIncome a));
    ("monthlyDebt", PFloat (monthlyDebt a));
    ("creditScore", PInt (creditScore a));
    ("employmentMonths", PInt (employmentMonths a));
    ("isFirstTimeBuyer", PBool (isFirstTimeBuyer a));
    ("isSelfEmployed", PBool (isSelfEmployed a)) ].

(** Coercion to [List[str]]: a list whose every item is accepted as a str. *)
Fixpoint coerce_all {A} (coerce : PyVal -> option A) (l : list PyVal)
    : option (list A) :=
  match l with
  | [] => Some []
  | v :: rest =>
      match coerce v, coerce_all coerce rest with
      | Some a, Some r => Some (a :: r)
      | _, _ => None
      end
  end.

Definition coerce_list_str (L : Libs) (v : PyVal) : option (list string) :=
  match v with
  | PList l => coerce_all (coerce_str L) l
  | _ => None
  end.

(** Validation of a parsed JSON value against [LoanDecision]: all four
    fields are required; [decision] and [riskLevel] are declared [str], so
    any string is accepted for them.  The result is the model or the names
    of the rejected fields. *)
Definition LoanDecision_validate (L : Libs) (obj : PyVal)
    : list string + LoanDecision :=
  match obj with
  | PDict d =>
      let f := fun name : string => dict_get name d in
      let f1 := get_field (coerce_str L) f "decision" in
      let f2 := get_field (coerce_str L) f "reasoning" in
      let f3 := get_field (coerce_str L) f "riskLevel" in
      let f4 := get_field (coerce_list_str L) f "appliedRules" in
      match f1, f2, f3, f4 with
      | Some v1, Some v2, Some v3, Some v4 => inr (mkLoanDecision v1 v2 v3 v4)
      | _, _, _, _ =>
          inl (offending "decision" f1 ++ offending "reasoning" f2
               ++ offending "riskLevel" f3 ++ offending "appliedRules" f4)%list
      end
  | _ => inl ["__root__"]
  end.

(** ** Output parser and prompt template *)

Record PydanticOutputParser : Type := mkParser { pydantic_object : ModelSchema }.

Definition get_format_instructions (L : Libs) (p : PydanticOutputParser) : string :=
  format_instructions_text L (pydantic_object p).

(** [output_parser.parse(text)] for the parser of [LoanDecision]: read the
    JSON value, then validate it; either step can raise. *)
Definition PydanticOutputParser_parse (L : Libs) (p : PydanticOutputParser)
    (text : string) : Outcome LoanDecision :=
  match parse_json L text with
  | Raise e => Raise e
  | Return obj =>
      match LoanDecision_validate L obj with
      | inr d => Return d
      | inl fields =>
          Raise (OutputParserException
                   (parse_failure_message L (schema_title (pydantic_object p)) text fields))
      end
  end.

(** Substitution into an f-string template: [{name}] is replaced by the
    value of [name], doubled braces stand for themselves.  [field] holds
    the name being read, if any. *)
Fixpoint fstring_format (kwargs : list (string * string)) (field : option string)
    (template : string) : Outcome string :=
  match field, template with
  | None, "" => Return ""
  | Some _, "" => Raise (ValueError "expected '}' before end of string")
  | Some name, String c rest =>
      if Ascii.eqb c "}" then
        match dict_get name kwargs with
        | None => Raise (KeyError name)
        | Some v =>
            match fstring_format kwargs None rest with
            | Return out => Return (v +:+ out)
            | Raise e => Raise e
            end
        end
      else fstring_format kwargs (Some (name +:+ String c "")) rest
  | None, String c rest =>
      let literal := fun (ch : ascii) (tail : string) =>
        match fstring_format kwargs None tail with
        | Return out => Return (String ch out)
        | Raise e => Raise e
        end in
      if Ascii.eqb c "{" then
        match rest with
        | String c' rest' =>
            if Ascii.eqb c' "{" then literal c rest'
            else fstring_format kwargs (Some "") rest
        | "" => fstring_format kwargs (Some "") rest
        end
      else if Ascii.eqb c "}" then
        match rest with
        | String c' rest' =>
            if Ascii.eqb c' "}" then literal c rest'
            else Raise (ValueError "Single '}' encountered in format string")
        | "" => Raise (ValueError "Single '}' encountered in format string")
        end
      else literal c rest
  end.

(** A chat prompt template: a role and an f-string template per message. *)
Record ChatPromptTemplate : Type := mkTemplate { messages : list (Role * string) }.

Definition from_messages (msgs : list (Role * string)) : ChatPromptTemplate :=
  mkTemplate msgs.

Fixpoint format_all (kwargs : list (string * string)) (msgs : list (Role * string))
    : Outcome (list Message) :=
  match msgs with
  | [] => Return []
  | (r, t) :: rest =>
      match fstring_format kwargs None t with
      | Raise e => Raise e
      | Return text =>
          match format_all kwargs rest with
          | Raise e => Raise e
          | Return out => Return (mkMessage r text :: out)
          end
      end
  end.

Definition format_messages (p : ChatPromptTemplate) (kwargs : list (string * string))
    : Outcome (list Message) :=
  format_all kwargs (messages p).

(** ** The agent *)

Record LoanAgent : Type := mkLoanAgent {
  llm : ChatOpenAI;
  output_parser : PydanticOutputParser;
  main_prompt : ChatPromptTemplate
}.

Definition system_template : string :=
  "You are a loan approval expert. You will receive a policy document and loan application data.

            Your task:
            1. Extract loan approval rules from the policy document
            2. Apply those rules to the loan application
            3. Make a decision with detailed reasoning

            Policy Document:
            {policy_text}

            {format_instructions}

            Guidelines for decision making:
            1. Calculate debt-to-income ratio: (monthly_debt * 12) / annual_income
            2. Determine risk level based on credit score ranges in the policy
            3. Apply appropriate DTI limits for the risk level
            4. Check special cases (first-time buyer, self-employed)
            5. Provide clear reasoning for your decision".

Definition human_template : string :=
  "Loan Application Data:
            {application_data}

            Please analyze the policy and make a loan decision.".

(** [LoanAgent.__init__]: the key given, or else the one in the
    environment; an absent or empty key raises.  An argument left out is
    [None]; [model_name] then takes its default. *)
Definition LoanAgent_init (environ : gmap string string)
    (openai_api_key_arg : option string) (model_name_arg : option string)
    : Outcome LoanAgent :=
  let api_key :=
    match openai_api_key_arg with
    | Some k => if String.eqb k "" then environ !! "OPENAI_API_KEY" else Some k
    | None => environ !! "OPENAI_API_KEY"
    end in
  let name := default "gpt-3.5-turbo" model_name_arg in
  let missing :=
    Raise (ValueError "OpenAI API key not provided. Set OPENAI_API_KEY environment variable or pass as parameter.") in
  match api_key with
  | None => missing
  | Some k =>
      if String.eqb k "" then missing
      else Return {| llm := mkChatOpenAI k name 0;
                     output_parser := mkParser LoanDecision_schema;
                     main_prompt := from_messages [(system, system_template);
                                                   (human, human_template)] |}
  end.

(** The two library calls that reach outside the process; each leaves a
    record of the attempt in the world, whatever its outcome. *)
Definition loader_load (L : Libs) (pdf_path : string) : Py (list string) :=
  fun w => (PyPDFLoader_load L pdf_path, log_pdf_load pdf_path w).

Definition llm_invoke (L : Libs) (client : ChatOpenAI) (prompt : list Message)
    : Py string :=
  fun w => (ChatOpenAI_invoke L client prompt, log_llm_request prompt w).

(** Reading the items of the dict object at [ref], as the double-star
    unpacking of a call does: the object itself is left as it is. *)
Definition unpack_mapping (ref : nat) : Py (gmap string PyVal) :=
  fun w => match heap w !! ref with
           | Some d => (Return d, w)
           | None => (Raise (TypeError "argument after ** must be a mapping"), w)
           end.

(** [load_policy_text(self, pdf_path)] *)
Definition load_policy_text (L : Libs) (self : LoanAgent) (pdf_path : string)
    : Py string :=
  try_except
    (documents <- loader_load L pdf_path ;;
     let policy_text := String.concat (nl +:+ nl) documents in
     print ("Loaded policy document: "
              +:+ str_of_int (Z.of_nat (String.length policy_text))
              +:+ " characters") ;;
     ret policy_text)
    (fun e =>
       print ("Error loading PDF: " +:+ str_exn L e) ;;
       ret "").

(** The prompt of step 3, [self.main_prompt.format_messages(...)]: the
    policy text, the application serialised as indented JSON, and the
    parser's format instructions, substituted into the two templates.  The
    arguments are evaluated first, so a failure of [json.dumps] is the
    failure of the step. *)
Definition build_prompt (L : Libs) (self : LoanAgent) (policy_text : string)
    (application : LoanApplication) : Outcome (list Message) :=
  match json_dumps (PDict (LoanApplication_dict application)) 2 with
  | Raise e => Raise e
  | Return application_json =>
      format_messages (main_prompt self)
        [ ("policy_text", policy_text);
          ("application_data", application_json);
          ("format_instructions", get_format_instructions L (output_parser self)) ]
  end.

(** [process_loan_application(self, pdf_path, application_data)];
    [application_data] is the caller's dict object, passed by reference. *)
Definition process_loan_application (L : Libs) (self : LoanAgent)
    (pdf_path : string) (application_data : nat) : Py PyDict :=
  policy_text <- load_policy_text L self pdf_path ;;
  if String.eqb policy_text "" then
    ret [ ("decision", PStr "denied");
          ("reasoning", PStr "Error loading policy document");
          ("riskLevel", PStr "high");
          ("appliedRules", PList [PStr "Error handling rule"]) ]
  else
    kwargs <- unpack_mapping application_data ;;
    application <- lift (LoanApplication_new L kwargs) ;;
    try_except
      (formatted_prompt <- lift (build_prompt L self policy_text application) ;;
       llm_response <- llm_invoke L (llm self) formatted_prompt ;;
       dec <- lift (PydanticOutputParser_parse L (output_parser self) llm_response) ;;
       ret [ ("decision", PStr (decision dec));
             ("reasoning", PStr (reasoning dec));
             ("riskLevel", PStr (riskLevel dec));
             ("appliedRules", PList (map PStr (appliedRules dec))) ])
      (fun e =>
         print ("Error processing application: " +:+ str_exn L e) ;;
         ret [ ("decision", PStr "denied");
               ("reasoning", PStr ("Error processing application: " +:+ str_exn L e));
               ("riskLevel", PStr "high");
               ("appliedRules", PList [PStr "Error handling rule"]) ]).

(** ** The runner's summary *)

(** The debt-to-income percentage of [display_application_summary], on the
    floats that [get_user_input] puts in the mapping: true division raises
    on a zero divisor. *)
Definition dti (monthlyDebt_v annualIncome_v : float) : Outcome float :=
  if PrimFloat.eqb annualIncome_v 0%float
  then Raise (ZeroDivisionError "float division by zero")
  else Return (PrimFloat.mul (PrimFloat.div (PrimFloat.mul monthlyDebt_v 12%float)
                                annualIncome_v) 100%float).

(** The line of the summary that shows it, one digit after the point. *)
Definition dti_line (d : float) : string :=
  "Debt-to-Income: " +:+ format_fixed 1 d +:+ "%".

(** ** Stand-ins for the libraries *)

(** The coercions at their least: a value of the declared type is taken as
    it is, any other value is refused. *)
Definition exact_str (v : PyVal) : option string :=
  match v with PStr s => Some s | _ => None end.
Definition exact_float (v : PyVal) : option float :=
  match v with PFloat f => Some f | _ => None end.
Definition exact_int (v : PyVal) : option Z :=
  match v with PInt z => Some z | _ => None end.
Definition exact_bool (v : PyVal) : option bool :=
  match v with PBool b => Some b | _ => None end.

(** Libraries for a test: the loader gives [pages] for every path, the
    service answers [response] to every prompt, and the JSON reader knows
    the completions listed in [json]. *)
Definition stub_libs (pages : Outcome (list string)) (response : Outcome string)
    (json : list (string * PyVal)) : Libs :=
  {| PyPDFLoader_load := fun _ => pages;
     ChatOpenAI_invoke := fun _ _ => response;
     parse_json := fun text =>
       match dict_get text json with
       | Some v => Return v
       | None => Raise (OutputParserException ("Invalid json output: " +:+ text))
       end;
     format_instructions_text := fun schema =>
       "The output should be a JSON instance of " +:+ schema_title schema +:+ ".";
     coerce_str := exact_str;
     coerce_float := exact_float;
     coerce_int := exact_int;
     coerce_bool := exact_bool;
     str_ValidationError := fun model fields =>
       str_of_int (Z.of_nat (length fields)) +:+ " validation errors for " +:+ model;
     parse_failure_message := fun model text fields =>
       "Failed to parse " +:+ model +:+ " from completion " +:+ text |}.

Definition empty_world : World :=
  {| stdout := []; pdf_loads := []; llm_requests := []; heap := ∅ |}.

(** A world in which the caller holds one dict object, at reference 0. *)
Definition world_with (d : gmap string PyVal) : World :=
  {| stdout := []; pdf_loads := []; llm_requests := []; heap := {[ 0%nat := d ]} |}.

(** The applicant of the runner's defaults. *)
Definition app_user_001 : gmap string PyVal :=
  list_to_map
    [ ("applicantId", PStr "APP_USER_001");
      ("requestedAmount", PFloat 250000%float);
      ("annualIncome", PFloat 75000%float);
      ("monthlyDebt", PFloat 2000%float);
      ("creditScore", PInt 700);
      ("employmentMonths", PInt 24);
      ("isFirstTimeBuyer", PBool false);
      ("isSelfEmployed", PBool false) ].

(** An agent built with a key passed as argument. *)
Definition test_agent : LoanAgent :=
  {| llm := mkChatOpenAI "sk-test" "gpt-3.5-turbo" 0;
     output_parser := mkParser LoanDecision_schema;
     main_prompt := from_messages [(system, system_template); (human, human_template)] |}.

Definition test_policy : list string :=
  ["credit score >= 680 is low risk; low risk DTI ceiling 40%"].

(** * The interactive runner of [loan_runner.py] *)

(** ** Strings *)

(** [c.isspace()] on the code points 0-255. *)
Definition is_space (c : ascii) : bool :=
  let n := N_of_ascii c in
  ((9 <=? n) && (n <=? 13) || (28 <=? n) && (n <=? 32) || (n =? 133) || (n =? 160))%N.

Fixpoint lstrip (s : string) : string :=
  match s with
  | String c rest => if is_space c then lstrip rest else s
  | "" => ""
  end.

(** The string without its trailing white space: a character is kept when
    anything kept follows it or it is not white space itself. *)
Fixpoint rstrip (s : string) : string :=
  match s with
  | String c rest =>
      match rstrip rest with
      | "" => if is_space c then "" else String c ""
      | kept => String c kept
      end
  | "" => ""
  end.

(** [s.strip()] *)
Definition strip (s : string) : string := rstrip (lstrip s).

(** [c.lower()] on the code points 0-255: the letters A-Z and the
    accented capitals have their small letter 32 places on. *)
Definition lower_char (c : ascii) : ascii :=
  let n := N_of_ascii c in
  if ((65 <=? n) && (n <=? 90) || (192 <=? n) && (n <=? 222) && negb (n =? 215))%N
  then ascii_of_N (n + 32) else c.

(** [s.lower()] *)
Fixpoint lower (s : string) : string :=
  match s with
  | String c rest => String (lower_char c) (lower rest)
  | "" => ""
  end.

(** The digits of a non-negative integer text in groups of three,
    separated by commas. *)
Fixpoint group_thousands (digits : string) : string :=
  match digits with
  | String c rest =>
      String c (if (0 <? String.length rest)%nat && (String.length rest mod 3 =? 0)%nat
                then "," +:+ group_thousands rest else group_thousands rest)
  | "" => ""
  end.

(** [format(x, ",.<p>f")]: fixed notation with the integer part grouped. *)
Definition format_grouped (p : nat) (f : float) : string :=
  let plain := format_fixed p f in
  match float_decode f with
  | S754_infinity _ | S754_nan => plain
  | _ =>
      let '(sign, body) :=
        match plain with
        | String "-" rest => ("-", rest)
        | _ => ("", plain)
        end in
      let int_len := match index 0 "." body with
                     | Some i => i
                     | None => String.length body
                     end in
      sign +:+ group_thousands (substring 0 int_len body)
           +:+ substring int_len (String.length body - int_len) body
  end.

(** ** The runner's world *)

(** What the runner finds around it: the conversions of a typed line to a
    number ([float(s)] and [int(s)], which raise [ValueError] on a text
    that is no number), [s.upper()], whether a path exists, and the error,
    if any, that opening a path for writing raises. *)
Record Runtime : Type := mkRuntime {
  float_of_str : string -> Outcome float;
  int_of_str : string -> Outcome Z;
  str_upper : string -> string;
  path_exists : string -> bool;
  open_for_write : string -> option Exn
}.

(** What the user does at a prompt once every line is typed: closes the
    input (Ctrl-D), or interrupts the process from the keyboard (Ctrl-C).
    The process waits for the user at its prompts, and this is where the
    interrupt is met; one that arrives between two prompts is not part of
    this model. *)
Inductive LastKey : Type := CtrlD | CtrlC.

(** The agent's world, the lines still to be typed, the files written, and
    the key that follows the last line. *)
Record Console : Type := mkConsole {
  world : World;
  stdin : list string;
  written : list (string * string);
  last_key : LastKey
}.

(** How a piece of the runner ends: with a value, with an exception, with
    [sys.exit(code)], or with [KeyboardInterrupt]; the last two are no
    [Exception], so no [except Exception] or [except ValueError] clause
    stops them. *)
Inductive Ending (A : Type) : Type :=
| Done (a : A)
| Raised (e : Exn)
| Exited (code : Z)
| Interrupted.
Arguments Done {A} a.
Arguments Raised {A} e.
Arguments Exited {A} code.
Arguments Interrupted {A}.

Definition Run (A : Type) : Type := Console -> Ending A * Console.

Definition run_ret {A} (a : A) : Run A := fun c => (Done a, c).

Definition run_bind {A B} (m : Run A) (k : A -> Run B) : Run B :=
  fun c => match m c with
           | (Done a, c') => k a c'
           | (Raised e, c') => (Raised e, c')
           | (Exited code, c') => (Exited code, c')
           | (Interrupted, c') => (Interrupted, c')
           end.

Definition sys_exit {A} (code : Z) : Run A := fun c => (Exited code, c).

Definition run_raise {A} (e : Exn) : Run A := fun c => (Raised e, c).

(** A computation of the agent, run on the world of the console. *)
Definition run_py {A} (m : Py A) : Run A :=
  fun c => match m (world c) with
           | (Return a, w') => (Done a, mkConsole w' (stdin c) (written c) (last_key c))
           | (Raise e, w') => (Raised e, mkConsole w' (stdin c) (written c) (last_key c))
           end.

Definition run_outcome {A} (o : Outcome A) : Run A :=
  fun c => match o with
           | Return a => (Done a, c)
           | Raise e => (Raised e, c)
           end.

Definition run_print (line : string) : Run unit := run_py (print line).

(** How a read ends when no line is left: [EOFError] on a closed input,
    [KeyboardInterrupt] on Ctrl-C. *)
Definition end_of_input {A} (key : LastKey) : Ending A :=
  match key with
  | CtrlD => Raised (LibraryError "EOFError" "EOF when reading a line")
  | CtrlC => Interrupted
  end.

(** [input(prompt)]: the prompt is written, then the next line is read. *)
Definition input (prompt : string) : Run string :=
  fun c =>
    let w' := log_stdout prompt (world c) in
    match stdin c with
    | line :: rest => (Done line, mkConsole w' rest (written c) (last_key c))
    | [] => (end_of_input (last_key c), mkConsole w' [] (written c) (last_key c))
    end.

Declare Scope run_scope.
Delimit Scope run_scope with run.
Notation "x <- c ;; k" := (run_bind c (fun x => k))
  (at level 100, c at next level, right associativity) : run_scope.
Notation "c ;; k" := (run_bind c (fun _ => k))
  (at level 100, right associativity) : run_scope.

(** ** Reading the application *)

Local Open Scope run_scope.

(** The mapping [get_user_input] builds, by the variables it is built
    from: a text, three floats, two integers and two booleans. *)
Record ApplicationData : Type := mkApplicationData {
  applicant_id : string;
  requested_amount : float;
  annual_income : float;
  monthly_debt : float;
  credit_score : Z;
  employment_months : Z;
  is_first_time : bool;
  is_self_employed : bool
}.

(** The dict literal of [get_user_input]. *)
Definition application_data_dict (a : ApplicationData) : gmap string PyVal :=
  list_to_map
    [ ("applicantId", PStr (applicant_id a));
      ("requestedAmount", PFloat (requested_amount a));
      ("annualIncome", PFloat (annual_income a));
      ("monthlyDebt", PFloat (monthly_debt a));
      ("creditScore", PInt (credit_score a));
      ("employmentMonths", PInt (employment_months a));
      ("isFirstTimeBuyer", PBool (is_first_time a));
      ("isSelfEmployed", PBool (is_self_employed a)) ].

(** [s or default] for a string: the default takes the place of the empty
    string. *)
Definition or_default (s default : string) : string :=
  if String.eqb s "" then default else s.

Definition pdf_prompt : string :=
  nl +:+ "Enter PDF policy file path (or press Enter for 'loan_policy.pdf'): ".

(** The loop that asks for the policy file, on the lines still to be
    typed: each turn reads the path and, when no such file exists, the
    answer to "Try again?"; it ends with an existing path, with exit status
    1 on any answer but y, or as a read ends when the lines run out. *)
Fixpoint pdf_path_loop (R : Runtime) (lines : list string) (w : World)
    (files : list (string * string)) (key : LastKey) : Ending string * Console :=
  match lines with
  | [] => (end_of_input key, mkConsole (log_stdout pdf_prompt w) [] files key)
  | line :: rest =>
      let w1 := log_stdout pdf_prompt w in
      let pdf_path := or_default (strip line) "loan_policy.pdf" in
      if path_exists R pdf_path then (Done pdf_path, mkConsole w1 rest files key)
      else
        let w2 := log_stdout "Try again? (y/n): "
                    (log_stdout ("File not found: " +:+ pdf_path) w1) in
        match rest with
        | [] => (end_of_input key, mkConsole w2 [] files key)
        | answer :: rest' =>
            if String.eqb (lower (strip answer)) "y"
            then pdf_path_loop R rest' w2 files key
            else (Exited 1, mkConsole w2 rest' files key)
        end
  end.

Definition ask_pdf_path (R : Runtime) : Run string :=
  fun c => pdf_path_loop R (stdin c) (world c) (written c) (last_key c).

(** [try: body except ValueError as e: handler e]: any other ending of
    the body, an exit or an interrupt among them, passes through. *)
Definition try_except_ValueError {A} (body : Run A) (handler : string -> Run A) : Run A :=
  fun c => match body c with
           | (Raised (ValueError msg), c') => handler msg c'
           | ending => ending
           end.

(** The [try] block of [get_user_input]: the eight answers, read in order
    and converted as they come. *)
Definition read_application (R : Runtime) (pdf_path : string)
    : Run (string * ApplicationData) :=
  line1 <- input "Applicant ID: " ;;
  line2 <- input "Requested Amount ($): " ;;
  requested <- run_outcome (float_of_str R (or_default line2 "250000")) ;;
  line3 <- input "Annual Income ($): " ;;
  income <- run_outcome (float_of_str R (or_default line3 "75000")) ;;
  line4 <- input "Monthly Debt ($): " ;;
  debt <- run_outcome (float_of_str R (or_default line4 "2000")) ;;
  line5 <- input "Credit Score: " ;;
  score <- run_outcome (int_of_str R (or_default line5 "700")) ;;
  line6 <- input "Employment Months: " ;;
  months <- run_outcome (int_of_str R (or_default line6 "24")) ;;
  line7 <- input "First-time buyer? (y/n): " ;;
  line8 <- input "Self-employed? (y/n): " ;;
  run_ret (pdf_path,
           {| applicant_id := or_default (strip line1) "APP_USER_001";
              requested_amount := requested;
              annual_income := income;
              monthly_debt := debt;
              credit_score := score;
              employment_months := months;
              is_first_time := String.eqb (lower (strip line7)) "y";
              is_self_employed := String.eqb (lower (strip line8)) "y" |}).

(** [get_user_input()] *)
Definition get_user_input (R : Runtime) : Run (string * ApplicationData) :=
  run_print "Loan Approval AI Agent - Interactive Runner" ;;
  run_print (repeat_string 50 "=") ;;
  pdf_path <- ask_pdf_path R ;;
  run_print ("Using policy file: " +:+ pdf_path) ;;
  run_print (nl +:+ "Enter Loan Application Data:") ;;
  run_print (repeat_string 30 "-") ;;
  try_except_ValueError
    (read_application R pdf_path)
    (fun msg =>
       run_print ("Invalid input: " +:+ msg) ;;
       sys_exit 1).

(** ** The summary *)

Definition yes_no (b : bool) : string := if b then "Yes" else "No".

(** [display_application_summary(application_data)], on a mapping as
    [get_user_input] builds it: the ratio is computed first, so a zero
    income raises before anything is printed. *)
Definition display_application_summary (a : ApplicationData) : Run unit :=
  ratio <- run_outcome (dti (monthly_debt a) (annual_income a)) ;;
  run_print (nl +:+ "Application Summary:") ;;
  run_print (repeat_string 25 "-") ;;
  run_print ("Applicant ID: " +:+ applicant_id a) ;;
  run_print ("Requested Amount: $" +:+ format_grouped 2 (requested_amount a)) ;;
  run_print ("Annual Income: $" +:+ format_grouped 2 (annual_income a)) ;;
  run_print ("Monthly Debt: $" +:+ format_grouped 2 (monthly_debt a)) ;;
  run_print (dti_line ratio) ;;
  run_print ("Credit Score: " +:+ str_of_int (credit_score a)) ;;
  run_print ("Employment: " +:+ str_of_int (employment_months a) +:+ " months") ;;
  run_print ("First-time Buyer: " +:+ yes_no (is_first_time a)) ;;
  run_print ("Self-employed: " +:+ yes_no (is_self_employed a)).

(** ** Values as text *)

Definition type_name (v : PyVal) : string :=
  match v with
  | PNone => "NoneType"
  | PBool _ => "bool"
  | PInt _ => "int"
  | PFloat _ => "float"
  | PStr _ => "str"
  | PList _ => "list"
  | PDict _ => "dict"
  end.

Fixpoint contains_char (c : ascii) (s : string) : bool :=
  match s with
  | String c' rest => Ascii.eqb c c' || contains_char c rest
  | "" => false
  end.

(** One character inside [repr(s)] written between [quote] characters. *)
Definition repr_char (quote c : ascii) : string :=
  let n := N_of_ascii c in
  if Ascii.eqb c quote || (n =? 92)%N then String "\" (String c "")
  else if (n =? 10)%N then "\n"
  else if (n =? 13)%N then "\r"
  else if (n =? 9)%N then "\t"
  else if ((n <? 32) || (126 <? n) && (n <? 161) || (n =? 173))%N
       then "\x" +:+ String (hex_digit (n / 16)) (String (hex_digit (n mod 16)) "")
       else String c "".

Fixpoint repr_chars (quote : ascii) (s : string) : string :=
  match s with
  | String c rest => repr_char quote c +:+ repr_chars quote rest
  | "" => ""
  end.

(** [repr(s)] for a string: single quotes, unless the text has a single
    quote and no double quote. *)
Definition repr_str (s : string) : string :=
  let quote := if contains_char "'" s && negb (contains_char "034" s)
               then "034"%char else "'"%char in
  String quote (repr_chars quote s) +:+ String quote "".

(** [repr(x)] for a float. *)
Definition float_repr (f : float) : string :=
  match float_decode f with
  | S754_infinity s => if s then "-inf" else "inf"
  | S754_nan => "nan"
  | _ => json_float f
  end.

(** [repr(v)] *)
Fixpoint py_repr (v : PyVal) : string :=
  match v with
  | PNone => "None"
  | PBool b => if b then "True" else "False"
  | PInt z => str_of_int z
  | PFloat f => float_repr f
  | PStr s => repr_str s
  | PList l => "[" +:+ String.concat ", " (map py_repr l) +:+ "]"
  | PDict d =>
      "{" +:+ String.concat ", "
                (map (fun kv : string * PyVal =>
                        repr_str (fst kv) +:+ ": " +:+ py_repr (snd kv)) d)
          +:+ "}"
  end.

(** [str(v)], which an f-string writes for a field without format. *)
Definition py_str (v : PyVal) : string :=
  match v with
  | PStr s => s
  | _ => py_repr v
  end.

(** [d[key]] *)
Definition getitem (d : PyDict) (key : string) : Outcome PyVal :=
  match dict_get key d with
  | Some v => Return v
  | None => Raise (KeyError key)
  end.

(** [v.upper()] *)
Definition upper_of (R : Runtime) (v : PyVal) : Outcome string :=
  match v with
  | PStr s => Return (str_upper R s)
  | _ => Raise (LibraryError "AttributeError"
                  ("'" +:+ type_name v +:+ "' object has no attribute 'upper'"))
  end.

(** [len(v)] *)
Definition py_len (v : PyVal) : Outcome Z :=
  match v with
  | PStr s => Return (Z.of_nat (String.length s))
  | PList l => Return (Z.of_nat (length l))
  | PDict d => Return (Z.of_nat (length d))
  | _ => Raise (TypeError ("object of type '" +:+ type_name v +:+ "' has no len()"))
  end.

(** The items a [for] loop draws from [v]. *)
Definition py_iter (v : PyVal) : Outcome (list PyVal) :=
  match v with
  | PStr s => Return (map (fun c => PStr (String c "")) (list_ascii_of_string s))
  | PList l => Return l
  | PDict d => Return (map (fun kv : string * PyVal => PStr (fst kv)) d)
  | _ => Raise (TypeError ("'" +:+ type_name v +:+ "' object is not iterable"))
  end.

(** ** The main function *)

(** [try: body except KeyboardInterrupt: on_interrupt except Exception as e:
    on_exception e]: an exit of the body passes through, and neither
    handler guards the other. *)
Definition try_except_KeyboardInterrupt_Exception {A} (body : Run A)
    (on_interrupt : Run A) (on_exception : Exn -> Run A) : Run A :=
  fun c => match body c with
           | (Interrupted, c') => on_interrupt c'
           | (Raised e, c') => on_exception e c'
           | ending => ending
           end.

(** A new dict object on the heap, at a reference not yet in use. *)
Definition new_dict (d : gmap string PyVal) : Run nat :=
  fun c =>
    let w := world c in
    let ref := fresh (dom (heap w)) in
    (Done ref,
     mkConsole {| stdout := stdout w; pdf_loads := pdf_loads w;
                  llm_requests := llm_requests w; heap := <[ref := d]> (heap w) |}
       (stdin c) (written c) (last_key c)).

(** [with open(path, 'w') as f: f.write(text)] *)
Definition write_file (R : Runtime) (path text : string) : Run unit :=
  fun c => match open_for_write R path with
           | Some e => (Raised e, c)
           | None => (Done tt, mkConsole (world c) (stdin c)
                                (written c ++ [(path, text)])%list (last_key c))
           end.

(** The loop over [enumerate(rules, start)]. *)
Fixpoint print_rules (i : Z) (rules : list PyVal) : Run unit :=
  match rules with
  | [] => run_ret tt
  | rule :: rest =>
      run_print ("   " +:+ str_of_int i +:+ ". " +:+ py_str rule) ;;
      print_rules (i + 1) rest
  end.

(** The part of [main] that shows and saves a result; [json.dump] writes
    to the file the text [json.dumps] has returned for the same dict. *)
Definition report (R : Runtime) (a : ApplicationData) (result : PyDict) : Run unit :=
  run_print (nl +:+ repeat_string 50 "=") ;;
  run_print "LOAN DECISION RESULT" ;;
  run_print (repeat_string 50 "=") ;;
  decision_v <- run_outcome (getitem result "decision") ;;
  decision_text <- run_outcome (upper_of R decision_v) ;;
  run_print (nl +:+ "Decision: " +:+ decision_text) ;;
  risk_v <- run_outcome (getitem result "riskLevel") ;;
  risk_text <- run_outcome (upper_of R risk_v) ;;
  run_print ("Risk Level: " +:+ risk_text) ;;
  rules_v <- run_outcome (getitem result "appliedRules") ;;
  count <- run_outcome (py_len rules_v) ;;
  run_print ("Applied Rules: " +:+ str_of_int count +:+ " rules") ;;
  run_print (nl +:+ "Reasoning:") ;;
  reasoning_v <- run_outcome (getitem result "reasoning") ;;
  run_print (py_str reasoning_v) ;;
  run_print (nl +:+ "Applied Rules:") ;;
  rules_v' <- run_outcome (getitem result "appliedRules") ;;
  rules <- run_outcome (py_iter rules_v') ;;
  print_rules 1 rules ;;
  run_print (nl +:+ repeat_string 50 "=") ;;
  run_print "JSON OUTPUT" ;;
  run_print (repeat_string 50 "=") ;;
  json_output <- run_outcome (json_dumps (PDict result) 2) ;;
  run_print json_output ;;
  let output_file := "loan_decision_" +:+ applicant_id a +:+ ".json" in
  write_file R output_file json_output ;;
  run_print (nl +:+ "Result saved to: " +:+ output_file).

(** [main()] *)
Definition main (L : Libs) (R : Runtime) (environ : gmap string string) : Run unit :=
  try_except_KeyboardInterrupt_Exception
    (match environ !! "OPENAI_API_KEY" with
     | Some api_key =>
         if String.eqb api_key "" then
           run_print "OPENAI_API_KEY environment variable not set" ;;
           run_print "Please set your OpenAI API key:" ;;
           run_print "export OPENAI_API_KEY='your-api-key-here'" ;;
           sys_exit 1
         else
           input_pair <- get_user_input R ;;
           application_data <- new_dict (application_data_dict (snd input_pair)) ;;
           display_application_summary (snd input_pair) ;;
           run_print (nl +:+ "Initializing AI Agent...") ;;
           agent <- run_outcome (LoanAgent_init environ (Some api_key) None) ;;
           run_print "Processing loan application..." ;;
           result <- run_py (process_loan_application L agent (fst input_pair)
                               application_data) ;;
           report R (snd input_pair) result
     | None =>
         run_print "OPENAI_API_KEY environment variable not set" ;;
         run_print "Please set your OpenAI API key:" ;;
         run_print "export OPENAI_API_KEY='your-api-key-here'" ;;
         sys_exit 1
     end)
    (sys_exit 0)
    (fun e =>
       run_print (nl +:+ "Error: " +:+ str_exn L e) ;;
       sys_exit 1).

Local Close Scope run_scope.

(** * Vocabulary of the properties *)

Local Open Scope list_scope.

(** The text [load_policy_text] returns for a path. *)
Definition policy_of (L : Libs) (pdf_path : string) : string :=
  match PyPDFLoader_load L pdf_path with
  | Return documents => String.concat (nl +:+ nl) documents
  | Raise _ => ""
  end.

(** The line that the load prints. *)
Definition load_message (L : Libs) (pdf_path : string) : string :=
  match PyPDFLoader_load L pdf_path with
  | Return documents =>
      "Loaded policy document: "
        +:+ str_of_int (Z.of_nat (String.length (String.concat (nl +:+ nl) documents)))
        +:+ " characters"
  | Raise e => "Error loading PDF: " +:+ str_exn L e
  end.

(** The world after the load: one attempt on the path, one line printed. *)
Definition loaded (L : Libs) (pdf_path : string) (w : World) : World :=
  log_stdout (load_message L pdf_path) (log_pdf_load pdf_path w).

(** The two shapes of record the pipeline returns. *)
Definition decision_record (d : LoanDecision) : PyDict :=
  [ ("decision", PStr (decision d));
    ("reasoning", PStr (reasoning d));
    ("riskLevel", PStr (riskLevel d));
    ("appliedRules", PList (map PStr (appliedRules d))) ].

Definition fallback_record (reason : string) : PyDict :=
  [ ("decision", PStr "denied");
    ("reasoning", PStr reason);
    ("riskLevel", PStr "high");
    ("appliedRules", PList [PStr "Error handling rule"]) ].

(** The handler of step 3, run in world [w]. *)
Definition handled (L : Libs) (e : Exn) (w : World) : Outcome PyDict * World :=
  (Return (fallback_record ("Error processing application: " +:+ str_exn L e)),
   log_stdout ("Error processing application: " +:+ str_exn L e) w).

(** A key counts as given when it is a non-empty string. *)
Definition given (key : option string) : bool :=
  match key with
  | Some k => negb (String.eqb k "")
  | None => false
  end.

(** Libraries whose loader finds no file. *)
Definition no_file_libs : Libs :=
  stub_libs (Raise (ValueError "File path missing.pdf is not a valid file or url"))
    (Return "") [].

(** Libraries for the scenario of the runner's defaults: a one-page
    policy, and a service whose completion is the JSON text of [value],
    which the JSON reader reads back as [value]. *)
Definition scenario_libs (value : PyVal) : Libs :=
  stub_libs (Return test_policy) (Return (json_text value 2))
    [(json_text value 2, value)].

Definition approved_value : PyVal :=
  PDict [ ("decision", PStr "approved");
          ("reasoning", PStr "Credit score 700 is low risk; DTI 32% is under 40%.");
          ("riskLevel", PStr "low");
          ("appliedRules", PList [PStr "credit score >= 680 is low risk";
                                  PStr "low risk DTI ceiling 40%"]) ].

Definition approved_response : string := json_text approved_value 2.

(** The literal text of the two templates around their three fields. *)
Definition system_head : string :=
  "You are a loan approval expert. You will receive a policy document and loan application data.

            Your task:
            1. Extract loan approval rules from the policy document
            2. Apply those rules to the loan application
            3. Make a decision with detailed reasoning

            Policy Document:
            ".

Definition system_middle : string :=
  "

            ".

Definition system_tail : string :=
  "

            Guidelines for decision making:
            1. Calculate debt-to-income ratio: (monthly_debt * 12) / annual_income
            2. Determine risk level based on credit score ranges in the policy
            3. Apply appropriate DTI limits for the risk level
            4. Check special cases (first-time buyer, self-employed)
            5. Provide clear reasoning for your decision".

Definition human_head : string :=
  "Loan Application Data:
            ".

Definition human_tail : string :=
  "

            Please analyze the policy and make a loan decision.".

(** The application-data segment: the human message of the prompt. *)
Definition application_data_segment (application : LoanApplication) : string :=
  human_head +:+ json_text (PDict (LoanApplication_dict application)) 2 +:+ human_tail.

(** An agent as [LoanAgent.__init__] builds it. *)
Definition initialised (self : LoanAgent) : Prop :=
  exists environ key model, LoanAgent_init environ key model = Return self.

(** The validated record of the runner's default applicant. *)
Definition app_user_001_record : LoanApplication :=
  mkLoanApplication "APP_USER_001" 250000%float 75000%float 2000%float 700 24 false false.

(** A second agent, with another key and model. *)
Definition other_agent : LoanAgent :=
  {| llm := mkChatOpenAI "sk-other" "gpt-4" 0;
     output_parser := mkParser LoanDecision_schema;
     main_prompt := from_messages [(system, system_template); (human, human_template)] |}.

(** The runs that reach the parser and see it succeed. *)
Definition parsed_as (L : Libs) (self : LoanAgent) (pdf_path : string)
    (application_data : nat) (w : World) (d : LoanDecision) : Prop :=
  exists kwargs application prompt text,
    policy_of L pdf_path <> ""
    /\ heap w !! application_data = Some kwargs
    /\ LoanApplication_new L kwargs = Return application
    /\ build_prompt L self (policy_of L pdf_path) application = Return prompt
    /\ ChatOpenAI_invoke L (llm self) prompt = Return text
    /\ PydanticOutputParser_parse L (output_parser self) text = Return d.

(** The decision the stand-in service gives for the default applicant. *)
Definition approved_decision : LoanDecision :=
  {| decision := "approved";
     reasoning := "Credit score 700 is low risk; DTI 32% is under 40%.";
     riskLevel := "low";
     appliedRules := ["credit score >= 680 is low risk"; "low risk DTI ceiling 40%"] |}.




(** [needle in hay] *)
Fixpoint is_substring (needle hay : string) : bool :=
  String.prefix needle hay
  || match hay with
     | "" => false
     | String _ rest => is_substring needle rest
     end.

(** Libraries whose service refuses every request. *)
Definition failing_service_libs : Libs :=
  stub_libs (Return test_policy)
    (Raise (LibraryError "RateLimitError" "Rate limit reached for requests")) [].

(** The names of the fields [LoanApplication] declares. *)
Definition LoanApplication_fields : list string :=
  [ "applicantId"; "requestedAmount"; "annualIncome"; "monthlyDebt";
    "creditScore"; "employmentMonths"; "isFirstTimeBuyer"; "isSelfEmployed" ].

(** The names of the fields [LoanDecision] declares. *)
Definition LoanDecision_fields : list string :=
  map field_name (schema_fields LoanDecision_schema).

(** Libraries whose loader opens a document that has no page. *)
Definition blank_document_libs : Libs :=
  stub_libs (Return []) (Return (json_text approved_value 2))
    [(json_text approved_value 2, approved_value)].

(** The prompt an initialised agent builds from a policy text and a record. *)
Definition prompt_of (L : Libs) (policy_text : string) (application : LoanApplication)
    : list Message :=
  [ mkMessage system
      (system_head +:+ policy_text +:+ system_middle
         +:+ format_instructions_text L LoanDecision_schema +:+ system_tail);
    mkMessage human (application_data_segment application) ].

(** An agent built with the key of the environment. *)
Definition env_agent : LoanAgent :=
  {| llm := mkChatOpenAI "sk-env" "gpt-3.5-turbo" 0;
     output_parser := mkParser LoanDecision_schema;
     main_prompt := from_messages [(system, system_template); (human, human_template)] |}.

(** The libraries whose coercions take a value of the declared type as it
    is. *)
Definition exact_coercions (L : Libs) : Prop :=
  (forall s, coerce_str L (PStr s) = Some s)
  /\ (forall f, coerce_float L (PFloat f) = Some f)
  /\ (forall z, coerce_int L (PInt z) = Some z)
  /\ (forall b, coerce_bool L (PBool b) = Some b).

(** A completion that leaves out the list of applied rules. *)
Definition incomplete_value : PyVal :=
  PDict [ ("decision", PStr "approved");
          ("reasoning", PStr "Low risk.");
          ("riskLevel", PStr "low") ].

(** ** Stand-ins for the runner *)

Fixpoint digits_value (acc : Z) (s : string) : option Z :=
  match s with
  | "" => Some acc
  | String c rest =>
      let n := N_of_ascii c in
      if ((48 <=? n) && (n <=? 57))%N
      then digits_value (10 * acc + Z.of_N (n - 48)) rest
      else None
  end.

(** A whole number written in digits, with an optional minus sign. *)
Definition whole_number (s : string) : option Z :=
  match s with
  | "" => None
  | String "-" "" => None
  | String "-" rest => option_map Z.opp (digits_value 0 rest)
  | _ => digits_value 0 s
  end.

Definition ascii_upper (c : ascii) : ascii :=
  let n := N_of_ascii c in
  if ((97 <=? n) && (n <=? 122))%N then ascii_of_N (n - 32) else c.

Fixpoint ascii_upper_string (s : string) : string :=
  match s with
  | String c rest => String (ascii_upper c) (ascii_upper_string rest)
  | "" => ""
  end.

(** A runtime for a test: numbers are whole numbers in digits, upper case
    is that of the letters a-z, the files that exist are those listed, and
    every path can be written. *)
Definition stub_runtime (existing : list string) : Runtime :=
  {| float_of_str := fun s =>
       match whole_number s with
       | Some z => Return (SF2Prim (binary_normalize prec emax z 0 false))
       | None => Raise (ValueError ("could not convert string to float: " +:+ repr_str s))
       end;
     int_of_str := fun s =>
       match whole_number s with
       | Some z => Return z
       | None => Raise (ValueError ("invalid literal for int() with base 10: "
                                      +:+ repr_str s))
       end;
     str_upper := ascii_upper_string;
     path_exists := fun p => existsb (String.eqb p) existing;
     open_for_write := fun _ => None |}.

Definition console_with (lines : list string) : Console :=
  mkConsole empty_world lines [] CtrlD.

(** The console after [line] has been written to its output. *)
Definition console_print (line : string) (c : Console) : Console :=
  mkConsole (log_stdout line (world c)) (stdin c) (written c) (last_key c).

Fixpoint console_prints (lines : list string) (c : Console) : Console :=
  match lines with
  | [] => c
  | line :: rest => console_prints rest (console_print line c)
  end.

(** The three lines [main] prints when it finds no key. *)
Definition no_key_lines : list string :=
  [ "OPENAI_API_KEY environment variable not set";
    "Please set your OpenAI API key:";
    "export OPENAI_API_KEY='your-api-key-here'" ].

(** The eleven lines of the summary. *)
Definition summary_lines (a : ApplicationData) (ratio : float) : list string :=
  [ nl +:+ "Application Summary:";
    repeat_string 25 "-";
    "Applicant ID: " +:+ applicant_id a;
    "Requested Amount: $" +:+ format_grouped 2 (requested_amount a);
    "Annual Income: $" +:+ format_grouped 2 (annual_income a);
    "Monthly Debt: $" +:+ format_grouped 2 (monthly_debt a);
    dti_line ratio;
    "Credit Score: " +:+ str_of_int (credit_score a);
    "Employment: " +:+ str_of_int (employment_months a) +:+ " months";
    "First-time Buyer: " +:+ yes_no (is_first_time a);
    "Self-employed: " +:+ yes_no (is_self_employed a) ].

(** The record the agent builds from the runner's mapping. *)
Definition application_of (a : ApplicationData) : LoanApplication :=
  mkLoanApplication (applicant_id a) (requested_amount a) (annual_income a)
    (monthly_debt a) (credit_score a) (employment_months a) (is_first_time a)
    (is_self_employed a).

(** A piece of the runner that, when it exits, exits with status 1. *)
Definition exits_with_1 {A} (m : Run A) : Prop :=
  forall c code c', m c = (Exited code, c') -> code = 1.

(** What the input dialogue leaves alone: [c'] differs from [c] only by
    lines read from the input and lines added to the output. *)
Definition only_talks (c c' : Console) : Prop :=
  written c' = written c
  /\ pdf_loads (world c') = pdf_loads (world c)
  /\ llm_requests (world c') = llm_requests (world c)
  /\ heap (world c') = heap (world c)
  /\ (exists read, stdin c = read ++ stdin c')
  /\ (exists out, stdout (world c') = stdout (world c) ++ out).

(** A piece of the runner that only talks, and ends with a value, with an
    exception other than [ValueError], or with exit status 1. *)
Definition dialogue {A} (m : Run A) : Prop :=
  forall c,
    only_talks c (snd (m c))
    /\ (forall code, fst (m c) = Exited code -> code = 1).

(** A piece of the runner that leaves the key after the last line to the
    user, and ends interrupted only when that key is Ctrl-C. *)
Definition interruptible {A} (m : Run A) : Prop :=
  forall c,
    last_key (snd (m c)) = last_key c
    /\ (fst (m c) = Interrupted -> last_key c = CtrlC).

(** The agent [main] builds with the key [k]. *)
Definition agent_for (k : string) : LoanAgent :=
  {| llm := mkChatOpenAI k "gpt-3.5-turbo" 0;
     output_parser := mkParser LoanDecision_schema;
     main_prompt := from_messages [(system, system_template); (human, human_template)] |}.

(** The console once the mapping [d] is on the heap. *)
Definition console_alloc (d : gmap string PyVal) (c : Console) : Console :=
  snd (new_dict d c).

(** How [main] ends on an exception: the error is printed, the status is 1. *)
Definition failed (L : Libs) (e : Exn) (c : Console) : Ending unit * Console :=
  (Exited 1, console_print (nl +:+ "Error: " +:+ str_exn L e) c).

(** A piece of the runner whose value, when it ends with one, satisfies [P]. *)
Definition ends_with {A} (P : A -> Prop) (m : Run A) : Prop :=
  forall c a c', m c = (Done a, c') -> P a.

(** A piece of the runner that raises only exceptions satisfying [Q]. *)
Definition raises_only {A} (Q : Exn -> Prop) (m : Run A) : Prop :=
  forall c e c', m c = (Raised e, c') -> Q e.

Definition not_ValueError (e : Exn) : Prop := forall msg, e <> ValueError msg.

(** A record with the four fields of a decision. *)
Definition record_of (s1 s2 s3 : string) (rules : list string) : PyDict :=
  [ ("decision", PStr s1);
    ("reasoning", PStr s2);
    ("riskLevel", PStr s3);
    ("appliedRules", PList (map PStr rules)) ].

(** The numbered lines of the applied rules. *)
Fixpoint rule_lines (i : Z) (rules : list string) : list string :=
  match rules with
  | [] => []
  | rule :: rest => ("   " +:+ str_of_int i +:+ ". " +:+ rule) :: rule_lines (i + 1) rest
  end.

(** The lines [main] prints for a result, up to the JSON text. *)
Definition report_lines (R : Runtime) (s1 s2 s3 : string) (rules : list string)
    : list string :=
  [ nl +:+ repeat_string 50 "=";
    "LOAN DECISION RESULT";
    repeat_string 50 "=";
    nl +:+ "Decision: " +:+ str_upper R s1;
    "Risk Level: " +:+ str_upper R s3;
    "Applied Rules: " +:+ str_of_int (Z.of_nat (length rules)) +:+ " rules";
    nl +:+ "Reasoning:";
    s2;
    nl +:+ "Applied Rules:" ]
  ++ rule_lines 1 rules
  ++ [ nl +:+ repeat_string 50 "=";
       "JSON OUTPUT";
       repeat_string 50 "=";
       json_text (PDict (record_of s1 s2 s3 rules)) 2 ].

(** The file [main] saves a result in. *)
Definition output_file_of (a : ApplicationData) : string :=
  "loan_decision_" +:+ applicant_id a +:+ ".json".

(** The console after [text] has been written to the file [path]. *)
Definition console_write (path text : string) (c : Console) : Console :=
  mkConsole (world c) (stdin c) (written c ++ [(path, text)]) (last_key c).

(** The reference [new_dict] gives to the dict it puts on the heap. *)
Definition alloc_ref (c : Console) : nat := fresh (dom (heap (world c))).

(** The two lines [main] prints between the summary and the agent's run. *)
Definition agent_lines : list string :=
  [ nl +:+ "Initializing AI Agent..."; "Processing loan application..." ].

(** The environment of a test, with a key in it. *)
Definition test_environ : gmap string string := {[ "OPENAI_API_KEY" := "sk-env" ]}.

(** Nine lines that leave every answer to its default. *)
Definition enter_nine_times : list string := [""; ""; ""; ""; ""; ""; ""; ""; ""].

(** The same, but for an annual income of zero. *)
Definition zero_income_lines : list string := [""; ""; ""; "0"; ""; ""; ""; ""; ""].

(** The application that the defaults give. *)
Definition default_application : ApplicationData :=
  mkApplicationData "APP_USER_001" 250000%float 75000%float 2000%float 700 24 false false.

(** The default applicant with a credit score of 4301 digits. *)
Definition oversized_score : Z := 10 ^ 4300.

Definition app_oversized : gmap string PyVal :=
  <[ "creditScore" := PInt oversized_score ]> app_user_001.

(** A console whose user types [lines] and then presses Ctrl-C. *)
Definition console_interrupted (lines : list string) : Console :=
  mkConsole empty_world lines [] CtrlC.

(** * Properties *)

(** ** What a run of the pipeline computes *)

Lemma load_policy_text_eq L self pdf_path w :
  load_policy_text L self pdf_path w = (Return (policy_of L pdf_path), loaded L pdf_path w).
Proof.
  unfold load_policy_text, try_except, bind, loader_load, policy_of, loaded, load_message.
  destruct (PyPDFLoader_load L pdf_path); reflexivity.
Qed.

(** The pipeline, case by case: which step decides the outcome, and the
    world each case leaves. *)
Lemma process_loan_application_eq L self pdf_path application_data w :
  process_loan_application L self pdf_path application_data w =
  let w1 := loaded L pdf_path w in
  if String.eqb (policy_of L pdf_path) "" then
    (Return (fallback_record "Error loading policy document"), w1)
  else
    match heap w !! application_data with
    | None => (Raise (TypeError "argument after ** must be a mapping"), w1)
    | Some kwargs =>
        match LoanApplication_new L kwargs with
        | Raise e => (Raise e, w1)
        | Return application =>
            match build_prompt L self (policy_of L pdf_path) application with
            | Raise e => handled L e w1
            | Return prompt =>
                let w2 := log_llm_request prompt w1 in
                match ChatOpenAI_invoke L (llm self) prompt with
                | Raise e => handled L e w2
                | Return text =>
                    match PydanticOutputParser_parse L (output_parser self) text with
                    | Raise e => handled L e w2
                    | Return d => (Return (decision_record d), w2)
                    end
                end
            end
        end
    end.
Proof.
  unfold process_loan_application, bind at 1.
  rewrite load_policy_text_eq. cbv zeta.
  destruct (String.eqb (policy_of L pdf_path) ""); [reflexivity|].
  unfold bind, unpack_mapping, lift, try_except, llm_invoke, handled, print, ret.
  change (heap (loaded L pdf_path w)) with (heap w).
  destruct (heap w !! application_data) as [kwargs|]; [|reflexivity].
  destruct (LoanApplication_new L kwargs) as [application|e]; [|reflexivity].
  destruct (build_prompt L self (policy_of L pdf_path) application) as [prompt|e];
    [|reflexivity].
  destruct (ChatOpenAI_invoke L (llm self) prompt) as [text|e]; [|reflexivity].
  destruct (PydanticOutputParser_parse L (output_parser self) text) as [d|e];
    reflexivity.
Qed.

(** The load changes neither the requests sent to the service nor the heap. *)
Lemma loaded_llm_requests L pdf_path w :
  llm_requests (loaded L pdf_path w) = llm_requests w.
Proof. reflexivity. Qed.

Lemma loaded_heap L pdf_path w : heap (loaded L pdf_path w) = heap w.
Proof. reflexivity. Qed.

Lemma loaded_pdf_loads L pdf_path w :
  pdf_loads (loaded L pdf_path w) = pdf_loads w ++ [pdf_path].
Proof. reflexivity. Qed.

(** Whatever the run, the heap is the one it started with. *)
Lemma process_loan_application_heap L self pdf_path application_data w :
  heap (snd (process_loan_application L self pdf_path application_data w)) = heap w.
Proof.
  rewrite process_loan_application_eq. cbv zeta.
  repeat match goal with
         | |- context [match ?x with _ => _ end] => destruct x
         | |- context [if ?b then _ else _] => destruct b
         end; reflexivity.
Qed.

(** ** The document loader *)

(** C8. [load_policy_text] returns a text for every path and never
    raises; when the loader fails, in construction, reading or parsing, the
    text is the empty string; and the run makes one load attempt, on the
    path it was given, and no second one. *)
Theorem load_policy_text_never_raises L self pdf_path w :
  (exists text, fst (load_policy_text L self pdf_path w) = Return text)
  /\ (forall e, PyPDFLoader_load L pdf_path = Raise e ->
        fst (load_policy_text L self pdf_path w) = Return "")
  /\ pdf_loads (snd (load_policy_text L self pdf_path w)) = pdf_loads w ++ [pdf_path].
Proof.
  rewrite load_policy_text_eq. cbn [fst snd].
  split; [eauto|]. split; [|reflexivity].
  intros e He. unfold policy_of. rewrite He. reflexivity.
Qed.

(** A missing file: the loader raises, the text is empty, one attempt. *)
Lemma load_policy_text_never_raises_witness :
  fst (load_policy_text
         (stub_libs (Raise (ValueError "File path missing.pdf is not a valid file or url"))
            (Return "") [])
         test_agent "missing.pdf" empty_world) = Return ""
  /\ pdf_loads (snd (load_policy_text
         (stub_libs (Raise (ValueError "File path missing.pdf is not a valid file or url"))
            (Return "") [])
         test_agent "missing.pdf" empty_world)) = ["missing.pdf"].
Proof.
  split.
  - apply (load_policy_text_never_raises
             (stub_libs (Raise (ValueError "File path missing.pdf is not a valid file or url"))
                (Return "") [])
             test_agent "missing.pdf" empty_world)
      with (e := ValueError "File path missing.pdf is not a valid file or url").
    reflexivity.
  - apply (load_policy_text_never_raises
             (stub_libs (Raise (ValueError "File path missing.pdf is not a valid file or url"))
                (Return "") [])
             test_agent "missing.pdf" empty_world).
Defined.

(** ** Construction of the agent *)

(** C9. With no key given as argument and none in the environment, the
    constructor raises [ValueError]: no agent is built, and so no pipeline
    runs that could turn the failure into a fallback record. *)
Theorem LoanAgent_init_requires_key environ openai_api_key_arg model_name_arg :
  given openai_api_key_arg = false ->
  given (environ !! "OPENAI_API_KEY") = false ->
  LoanAgent_init environ openai_api_key_arg model_name_arg
  = Raise (ValueError "OpenAI API key not provided. Set OPENAI_API_KEY environment variable or pass as parameter.").
Proof.
  intros Harg Henv. unfold LoanAgent_init, given in *.
  destruct openai_api_key_arg as [k|].
  - destruct (String.eqb k ""); [|discriminate].
    destruct (environ !! "OPENAI_API_KEY") as [k'|]; [|reflexivity].
    destruct (String.eqb k' ""); [reflexivity|discriminate].
  - destruct (environ !! "OPENAI_API_KEY") as [k'|]; [|reflexivity].
    destruct (String.eqb k' ""); [reflexivity|discriminate].
Qed.

Lemma LoanAgent_init_requires_key_witness :
  LoanAgent_init ∅ None None
  = Raise (ValueError "OpenAI API key not provided. Set OPENAI_API_KEY environment variable or pass as parameter.").
Proof.
  apply (LoanAgent_init_requires_key ∅ None None); reflexivity.
Defined.

(** With a key, the agent is built: temperature zero, the parser of
    [LoanDecision], the two templates. *)
Lemma LoanAgent_init_with_key environ k model_name_arg :
  k <> "" ->
  LoanAgent_init environ (Some k) model_name_arg
  = Return {| llm := mkChatOpenAI k (default "gpt-3.5-turbo" model_name_arg) 0;
              output_parser := mkParser LoanDecision_schema;
              main_prompt := from_messages [(system, system_template);
                                            (human, human_template)] |}.
Proof.
  intros Hk. unfold LoanAgent_init. cbv zeta.
  destruct (String.eqb k "") eqn:E.
  - apply String.eqb_eq in E. contradiction.
  - cbn. rewrite E. reflexivity.
Qed.

(** ** The applicant mapping is only read *)

(** C10. [process_loan_application] leaves the caller's mapping as it
    was: after the call, whatever its outcome, every dict object of the
    heap, the one passed as [application_data] among them, has the keys and
    values it had before. *)
Theorem process_loan_application_preserves_application_data
    L self pdf_path application_data w :
  heap (snd (process_loan_application L self pdf_path application_data w))
    !! application_data
  = heap w !! application_data
  /\ heap (snd (process_loan_application L self pdf_path application_data w)) = heap w.
Proof.
  rewrite process_loan_application_heap. split; reflexivity.
Qed.

(** ** Fallback on a missing policy *)

(** C3, as the code has it.  When the loader yields the empty string, the
    pipeline returns, whatever the applicant mapping holds, the record
    decision "denied", reasoning "Error loading policy document", riskLevel
    "high", appliedRules ["Error handling rule"], and sends nothing to the
    service. *)
Theorem empty_policy_gives_fixed_fallback L self pdf_path application_data w :
  fst (load_policy_text L self pdf_path w) = Return "" ->
  fst (process_loan_application L self pdf_path application_data w)
  = Return [ ("decision", PStr "denied");
             ("reasoning", PStr "Error loading policy document");
             ("riskLevel", PStr "high");
             ("appliedRules", PList [PStr "Error handling rule"]) ]
  /\ llm_requests (snd (process_loan_application L self pdf_path application_data w))
     = llm_requests w.
Proof.
  rewrite load_policy_text_eq. cbn [fst]. intros [= Hempty].
  rewrite process_loan_application_eq, Hempty. cbn. split; reflexivity.
Qed.

Lemma empty_policy_gives_fixed_fallback_witness :
  fst (process_loan_application no_file_libs test_agent "missing.pdf" 0
         (world_with app_user_001))
  = Return [ ("decision", PStr "denied");
             ("reasoning", PStr "Error loading policy document");
             ("riskLevel", PStr "high");
             ("appliedRules", PList [PStr "Error handling rule"]) ]
  /\ llm_requests (snd (process_loan_application no_file_libs test_agent "missing.pdf" 0
                          (world_with app_user_001)))
     = [].
Proof.
  apply (empty_policy_gives_fixed_fallback no_file_libs test_agent "missing.pdf" 0
           (world_with app_user_001)).
  reflexivity.
Defined.

(** The reasoning of that record is not the text "policy document
    unavailable": with no file to load, the loader returns the empty string
    and the record says "Error loading policy document". *)
Lemma empty_policy_reasoning_counterexample :
  fst (load_policy_text no_file_libs test_agent "missing.pdf" (world_with app_user_001))
  = Return ""
  /\ fst (process_loan_application no_file_libs test_agent "missing.pdf" 0
            (world_with app_user_001))
     <> Return [ ("decision", PStr "denied");
                 ("reasoning", PStr "policy document unavailable");
                 ("riskLevel", PStr "high");
                 ("appliedRules", PList [PStr "Error handling rule"]) ].
Proof.
  split; [reflexivity|].
  rewrite process_loan_application_eq. cbn. discriminate.
Qed.

(** ** A rejected applicant mapping *)

(** A rejected mapping stops the run before the prompt is built. *)
Lemma rejected_application_sends_nothing
    L self pdf_path application_data w policy_text kwargs e :
  fst (load_policy_text L self pdf_path w) = Return policy_text ->
  policy_text <> "" ->
  heap w !! application_data = Some kwargs ->
  LoanApplication_new L kwargs = Raise e ->
  llm_requests (snd (process_loan_application L self pdf_path application_data w))
  = llm_requests w.
Proof.
  rewrite load_policy_text_eq. cbn [fst]. intros [= Hpol] Hne Hheap Hrej.
  rewrite process_loan_application_eq, Hpol, Hheap, Hrej. cbv zeta.
  destruct (String.eqb policy_text ""); reflexivity.
Qed.

(** The validator looks at presence and type only: a mapping it accepts is
    still accepted when its [annualIncome] is replaced by zero. *)
Lemma zero_income_is_accepted L kwargs application :
  coerce_float L (PFloat 0%float) = Some 0%float ->
  LoanApplication_new L kwargs = Return application ->
  LoanApplication_new L (<["annualIncome" := PFloat 0%float]> kwargs)
  = Return (mkLoanApplication (applicantId application) (requestedAmount application)
              0%float (monthlyDebt application) (creditScore application)
              (employmentMonths application) (isFirstTimeBuyer application)
              (isSelfEmployed application)).
Proof.
  intros Hzero. unfold LoanApplication_new, get_field. cbv zeta.
  rewrite lookup_insert_eq, !lookup_insert_ne by done. rewrite Hzero.
  destruct (kwargs !! "applicantId") as [v1|]; [|discriminate].
  destruct (coerce_str L v1) as [a1|]; [|discriminate].
  destruct (kwargs !! "requestedAmount") as [v2|]; [|discriminate].
  destruct (coerce_float L v2) as [a2|]; [|discriminate].
  destruct (kwargs !! "annualIncome") as [v3|]; [|discriminate].
  destruct (coerce_float L v3) as [a3|]; [|discriminate].
  destruct (kwargs !! "monthlyDebt") as [v4|]; [|discriminate].
  destruct (coerce_float L v4) as [a4|]; [|discriminate].
  destruct (kwargs !! "creditScore") as [v5|]; [|discriminate].
  destruct (coerce_int L v5) as [a5|]; [|discriminate].
  destruct (kwargs !! "employmentMonths") as [v6|]; [|discriminate].
  destruct (coerce_int L v6) as [a6|]; [|discriminate].
  destruct (kwargs !! "isFirstTimeBuyer") as [v7|]; [|discriminate].
  destruct (coerce_bool L v7) as [a7|]; [|discriminate].
  destruct (kwargs !! "isSelfEmployed") as [v8|]; [|discriminate].
  destruct (coerce_bool L v8) as [a8|]; [|discriminate].
  intros [= <-]. reflexivity.
Qed.

(** C1, the part the code keeps.  When the loaded policy is not empty and
    the validator rejects the applicant mapping, for a missing field or a
    value its type does not accept, the run sends nothing to the service.
    The validator has no range check: a mapping it accepts stays accepted
    with [annualIncome] set to zero. *)
Theorem rejected_application_never_reaches_service
    L self pdf_path application_data w :
  (forall policy_text kwargs e,
      fst (load_policy_text L self pdf_path w) = Return policy_text ->
      policy_text <> "" ->
      heap w !! application_data = Some kwargs ->
      LoanApplication_new L kwargs = Raise e ->
      llm_requests (snd (process_loan_application L self pdf_path application_data w))
      = llm_requests w)
  /\ (forall kwargs application,
        coerce_float L (PFloat 0%float) = Some 0%float ->
        LoanApplication_new L kwargs = Return application ->
        exists application',
          LoanApplication_new L (<["annualIncome" := PFloat 0%float]> kwargs)
          = Return application'
          /\ annualIncome application' = 0%float).
Proof.
  split.
  - intros policy_text kwargs e. apply rejected_application_sends_nothing.
  - intros kwargs application Hzero Hacc.
    eexists. split; [apply (zero_income_is_accepted L kwargs application Hzero Hacc)|].
    reflexivity.
Qed.

Lemma rejected_application_never_reaches_service_witness :
  llm_requests
    (snd (process_loan_application (scenario_libs approved_value)
            test_agent "loan_policy.pdf" 0
            (world_with (delete "applicantId" app_user_001))))
  = [].
Proof.
  apply (proj1 (rejected_application_never_reaches_service
                  (scenario_libs approved_value) test_agent
                  "loan_policy.pdf" 0 (world_with (delete "applicantId" app_user_001)))
           "credit score >= 680 is low risk; low risk DTI ceiling 40%"
           (delete "applicantId" app_user_001)
           (ValidationError "LoanApplication" ["applicantId"]));
    [reflexivity | discriminate | reflexivity | reflexivity].
Defined.

(** A mapping without [applicantId] is rejected, and the pipeline hands
    the validator's error to its caller instead of returning a record; a
    mapping whose [annualIncome] is zero is not rejected at all, and its
    run reaches the service. *)
Lemma rejected_application_counterexample :
  LoanApplication_new (scenario_libs approved_value)
    (delete "applicantId" app_user_001)
  = Raise (ValidationError "LoanApplication" ["applicantId"])
  /\ fst (process_loan_application (scenario_libs approved_value)
            test_agent "loan_policy.pdf" 0
            (world_with (delete "applicantId" app_user_001)))
     = Raise (ValidationError "LoanApplication" ["applicantId"])
  /\ LoanApplication_new (scenario_libs approved_value)
       (<["annualIncome" := PFloat 0%float]> app_user_001)
     = Return (mkLoanApplication "APP_USER_001" 250000%float 0%float 2000%float
                 700 24 false false)
  /\ length (llm_requests
       (snd (process_loan_application (scenario_libs approved_value)
               test_agent "loan_policy.pdf" 0
               (world_with (<["annualIncome" := PFloat 0%float]> app_user_001)))))
     = 1%nat.
Proof.
  repeat split; vm_compute; reflexivity.
Qed.

(** ** The prompt *)

Lemma system_template_fields :
  system_template
  = system_head +:+ "{policy_text}" +:+ system_middle +:+ "{format_instructions}"
      +:+ system_tail.
Proof. reflexivity. Qed.

Lemma human_template_fields :
  human_template = human_head +:+ "{application_data}" +:+ human_tail.
Proof. reflexivity. Qed.

(** Formatting the agent's templates cannot fail, and gives the policy
    text and the format instructions inside the system message, the
    serialised application inside the human message. *)
Lemma format_main_prompt policy_text application_json format_instructions :
  format_messages (from_messages [(system, system_template); (human, human_template)])
    [ ("policy_text", policy_text);
      ("application_data", application_json);
      ("format_instructions", format_instructions) ]
  = Return [ mkMessage system
               (system_head +:+ policy_text +:+ system_middle +:+ format_instructions
                  +:+ system_tail);
             mkMessage human (human_head +:+ application_json +:+ human_tail) ].
Proof. vm_compute. reflexivity. Qed.

Lemma initialised_main_prompt self :
  initialised self ->
  main_prompt self = from_messages [(system, system_template); (human, human_template)]
  /\ output_parser self = mkParser LoanDecision_schema.
Proof.
  intros (environ & key & model & Hinit). unfold LoanAgent_init in Hinit.
  cbv zeta in Hinit.
  destruct (match key with
            | Some k => if String.eqb k "" then environ !! "OPENAI_API_KEY" else Some k
            | None => environ !! "OPENAI_API_KEY"
            end) as [k|]; [|discriminate].
  destruct (String.eqb k ""); [discriminate|].
  injection Hinit as <-. split; reflexivity.
Qed.

(** Serialising a record fails exactly when one of its two integers has
    too many digits. *)
Lemma json_dumps_application application :
  json_dumps (PDict (LoanApplication_dict application)) 2
  = if int_repr_allowed (creditScore application)
       && int_repr_allowed (employmentMonths application)
    then Return (json_text (PDict (LoanApplication_dict application)) 2)
    else Raise int_repr_error.
Proof.
  unfold json_dumps. cbn [ints_allowed LoanApplication_dict forallb snd andb].
  rewrite andb_true_r. reflexivity.
Qed.

Lemma build_prompt_eq L self policy_text application :
  initialised self ->
  build_prompt L self policy_text application
  = if int_repr_allowed (creditScore application)
       && int_repr_allowed (employmentMonths application)
    then Return (prompt_of L policy_text application)
    else Raise int_repr_error.
Proof.
  intros Hself. destruct (initialised_main_prompt self Hself) as [Hprompt Hparser].
  unfold build_prompt, get_format_instructions.
  rewrite json_dumps_application, Hprompt, Hparser.
  destruct (int_repr_allowed (creditScore application)
            && int_repr_allowed (employmentMonths application)); [|reflexivity].
  apply format_main_prompt.
Qed.

Lemma build_prompt_within_limit L self policy_text application :
  initialised self ->
  int_repr_allowed (creditScore application) = true ->
  int_repr_allowed (employmentMonths application) = true ->
  build_prompt L self policy_text application
  = Return (prompt_of L policy_text application).
Proof.
  intros Hself H1 H2. rewrite (build_prompt_eq L self _ _ Hself), H1, H2. reflexivity.
Qed.

Lemma app_user_001_within_limit :
  int_repr_allowed (creditScore app_user_001_record) = true
  /\ int_repr_allowed (employmentMonths app_user_001_record) = true.
Proof. split; vm_compute; reflexivity. Qed.

Lemma test_agent_prompt L policy_text :
  build_prompt L test_agent policy_text app_user_001_record
  = Return (prompt_of L policy_text app_user_001_record).
Proof.
  apply build_prompt_within_limit;
    [exists ∅, (Some "sk-test"), None; reflexivity | apply app_user_001_within_limit ..].
Qed.

Lemma test_agent_initialised : initialised test_agent.
Proof. exists ∅, (Some "sk-test"), None. reflexivity. Qed.

(** C7. The prompt builder is a function of the policy text, the
    applicant record and the schema description alone: two agents, built
    with any keys and model names, over libraries that agree on the format
    instructions of [LoanDecision], in any two worlds, build the same
    messages for the same policy text and record; and building them leaves
    the world as it was. *)
Theorem prompt_builder_deterministic
    L1 L2 self1 self2 policy_text application w1 w2 :
  initialised self1 ->
  initialised self2 ->
  format_instructions_text L1 LoanDecision_schema
  = format_instructions_text L2 LoanDecision_schema ->
  fst (lift (build_prompt L1 self1 policy_text application) w1)
  = fst (lift (build_prompt L2 self2 policy_text application) w2)
  /\ snd (lift (build_prompt L1 self1 policy_text application) w1) = w1.
Proof.
  intros H1 H2 Hschema. unfold lift. cbn [fst snd]. split; [|reflexivity].
  rewrite (build_prompt_eq L1 self1 _ _ H1), (build_prompt_eq L2 self2 _ _ H2).
  unfold prompt_of. rewrite Hschema. reflexivity.
Qed.

Lemma other_agent_initialised : initialised other_agent.
Proof. exists ∅, (Some "sk-other"), (Some "gpt-4"). reflexivity. Qed.

Lemma prompt_builder_deterministic_witness :
  fst (lift (build_prompt no_file_libs test_agent "policy" app_user_001_record)
         empty_world)
  = fst (lift (build_prompt (scenario_libs approved_value) other_agent
                 "policy" app_user_001_record)
           (world_with app_user_001))
  /\ snd (lift (build_prompt no_file_libs test_agent "policy" app_user_001_record)
            empty_world)
     = empty_world.
Proof.
  apply (prompt_builder_deterministic no_file_libs
           (scenario_libs approved_value) test_agent other_agent
           "policy" app_user_001_record empty_world (world_with app_user_001)
           test_agent_initialised other_agent_initialised).
  reflexivity.
Defined.

(** ** The shape of the result *)

(** Every returned record is the record of a parsed decision or a
    fallback record. *)
Lemma returned_record_cases L self pdf_path application_data w r :
  fst (process_loan_application L self pdf_path application_data w) = Return r ->
  (exists d, parsed_as L self pdf_path application_data w d /\ r = decision_record d)
  \/ (exists reason, r = fallback_record reason).
Proof.
  rewrite process_loan_application_eq. cbv zeta.
  destruct (String.eqb_spec (policy_of L pdf_path) "") as [Hempty|Hne].
  { intros [= <-]. right. eauto. }
  destruct (heap w !! application_data) as [kwargs|] eqn:Hheap; [|discriminate].
  destruct (LoanApplication_new L kwargs) as [application|e] eqn:Hnew; [|discriminate].
  destruct (build_prompt L self (policy_of L pdf_path) application)
    as [prompt|e] eqn:Hprompt; [|intros [= <-]; right; eauto].
  destruct (ChatOpenAI_invoke L (llm self) prompt) as [text|e] eqn:Hllm;
    [|intros [= <-]; right; eauto].
  destruct (PydanticOutputParser_parse L (output_parser self) text) as [d|e] eqn:Hparse;
    [|intros [= <-]; right; eauto].
  intros [= <-]. left. exists d. split; [|reflexivity].
  exists kwargs, application, prompt, text. auto 10.
Qed.

(** A run that reaches the parser and sees it succeed returns the record
    of the parsed decision. *)
Lemma parsed_run_returns_decision L self pdf_path application_data w d :
  parsed_as L self pdf_path application_data w d ->
  fst (process_loan_application L self pdf_path application_data w)
  = Return (decision_record d).
Proof.
  intros (kwargs & application & prompt & text & Hne & Hheap & Hnew & Hprompt & Hllm & Hparse).
  rewrite process_loan_application_eq. cbv zeta.
  destruct (String.eqb_spec (policy_of L pdf_path) "") as [Hempty|_]; [contradiction|].
  rewrite Hheap, Hnew, Hprompt, Hllm, Hparse. reflexivity.
Qed.

(** C4. A record the pipeline returns, whether it carries a parsed
    decision or a fallback, has the four fields decision, reasoning,
    riskLevel and appliedRules and no other; and when it is a fallback
    record its decision is "denied", its riskLevel "high", and its
    appliedRules hold the marker "Error handling rule". *)
Theorem returned_record_shape L self pdf_path application_data w r :
  fst (process_loan_application L self pdf_path application_data w) = Return r ->
  dict_keys r = ["decision"; "reasoning"; "riskLevel"; "appliedRules"]
  /\ ((exists d, parsed_as L self pdf_path application_data w d /\ r = decision_record d)
      \/ (exists reason, r = fallback_record reason
          /\ dict_get "decision" r = Some (PStr "denied")
          /\ dict_get "riskLevel" r = Some (PStr "high")
          /\ exists rules, dict_get "appliedRules" r = Some (PList rules)
                           /\ In (PStr "Error handling rule") rules)).
Proof.
  intros Hrun. destruct (returned_record_cases _ _ _ _ _ _ Hrun) as [(d & Hd & ->)|(reason & ->)].
  - split; [reflexivity|]. left. eauto.
  - split; [reflexivity|]. right. exists reason. repeat split.
    exists [PStr "Error handling rule"]. split; [reflexivity|]. left. reflexivity.
Qed.

Lemma returned_record_shape_witness :
  dict_keys (fallback_record "Error loading policy document")
  = ["decision"; "reasoning"; "riskLevel"; "appliedRules"]
  /\ ((exists d, parsed_as no_file_libs test_agent "missing.pdf" 0
                   (world_with app_user_001) d
                 /\ fallback_record "Error loading policy document" = decision_record d)
      \/ (exists reason,
            fallback_record "Error loading policy document" = fallback_record reason
            /\ dict_get "decision" (fallback_record "Error loading policy document")
               = Some (PStr "denied")
            /\ dict_get "riskLevel" (fallback_record "Error loading policy document")
               = Some (PStr "high")
            /\ exists rules,
                 dict_get "appliedRules" (fallback_record "Error loading policy document")
                 = Some (PList rules)
                 /\ In (PStr "Error handling rule") rules)).
Proof.
  apply (returned_record_shape no_file_libs test_agent "missing.pdf" 0
           (world_with app_user_001) (fallback_record "Error loading policy document")).
  reflexivity.
Defined.

(** ** Pass-through of a parsed decision *)

(** C6. In a run in which the parser succeeds, the returned record holds
    the parsed decision's decision, reasoning, riskLevel and appliedRules,
    each as the parser produced it. *)
Theorem parsed_decision_is_returned_unchanged L self pdf_path application_data w d :
  parsed_as L self pdf_path application_data w d ->
  exists r,
    fst (process_loan_application L self pdf_path application_data w) = Return r
    /\ dict_get "decision" r = Some (PStr (decision d))
    /\ dict_get "reasoning" r = Some (PStr (reasoning d))
    /\ dict_get "riskLevel" r = Some (PStr (riskLevel d))
    /\ dict_get "appliedRules" r = Some (PList (map PStr (appliedRules d)))
    /\ dict_keys r = ["decision"; "reasoning"; "riskLevel"; "appliedRules"].
Proof.
  intros Hparsed. exists (decision_record d).
  split; [apply parsed_run_returns_decision; exact Hparsed|].
  repeat split.
Qed.

Lemma scenario_parsed :
  parsed_as (scenario_libs approved_value) test_agent
    "loan_policy.pdf" 0 (world_with app_user_001) approved_decision.
Proof.
  exists app_user_001, app_user_001_record.
  eexists. exists approved_response.
  split; [discriminate|]. split; [reflexivity|]. split; [reflexivity|].
  split; [apply test_agent_prompt|].
  split; reflexivity.
Qed.

Lemma parsed_decision_is_returned_unchanged_witness :
  exists r,
    fst (process_loan_application (scenario_libs approved_value) test_agent
           "loan_policy.pdf" 0 (world_with app_user_001)) = Return r
    /\ dict_get "decision" r = Some (PStr "approved")
    /\ dict_get "reasoning" r
       = Some (PStr "Credit score 700 is low risk; DTI 32% is under 40%.")
    /\ dict_get "riskLevel" r = Some (PStr "low")
    /\ dict_get "appliedRules" r
       = Some (PList [PStr "credit score >= 680 is low risk";
                      PStr "low risk DTI ceiling 40%"])
    /\ dict_keys r = ["decision"; "reasoning"; "riskLevel"; "appliedRules"].
Proof.
  exact (parsed_decision_is_returned_unchanged (scenario_libs approved_value) test_agent
           "loan_policy.pdf" 0 (world_with app_user_001) approved_decision
           scenario_parsed).
Defined.

(** ** The decision field *)

Lemma coerce_all_strings (coerce : PyVal -> option string) (l : list string) :
  (forall x, coerce (PStr x) = Some x) ->
  coerce_all coerce (map PStr l) = Some l.
Proof.
  intros Hexact. induction l as [|x l IH]; [reflexivity|].
  cbn. rewrite Hexact, IH. reflexivity.
Qed.

(** A JSON object with four fields of the declared types is a valid
    [LoanDecision], whatever strings its fields hold. *)
Lemma LoanDecision_validate_any_strings L s r k rules :
  (forall x, coerce_str L (PStr x) = Some x) ->
  LoanDecision_validate L
    (PDict [ ("decision", PStr s); ("reasoning", PStr r); ("riskLevel", PStr k);
             ("appliedRules", PList (map PStr rules)) ])
  = inr (mkLoanDecision s r k rules).
Proof.
  intros Hexact. unfold LoanDecision_validate, get_field, coerce_list_str. cbn.
  rewrite !Hexact, (coerce_all_strings _ _ Hexact). reflexivity.
Qed.





(** ** Debt-to-income *)

(** The lines of the serialised default applicant. *)
Lemma app_user_001_json :
  json_text (PDict (LoanApplication_dict app_user_001_record)) 2
  = String.concat nl
      [ "{";
        "  " +:+ dq +:+ "applicantId" +:+ dq +:+ ": " +:+ dq +:+ "APP_USER_001" +:+ dq +:+ ",";
        "  " +:+ dq +:+ "requestedAmount" +:+ dq +:+ ": 250000.0,";
        "  " +:+ dq +:+ "annualIncome" +:+ dq +:+ ": 75000.0,";
        "  " +:+ dq +:+ "monthlyDebt" +:+ dq +:+ ": 2000.0,";
        "  " +:+ dq +:+ "creditScore" +:+ dq +:+ ": 700,";
        "  " +:+ dq +:+ "employmentMonths" +:+ dq +:+ ": 24,";
        "  " +:+ dq +:+ "isFirstTimeBuyer" +:+ dq +:+ ": false,";
        "  " +:+ dq +:+ "isSelfEmployed" +:+ dq +:+ ": false";
        "}" ].
Proof. vm_compute. reflexivity. Qed.




(** The segment does hold the income as it was given. *)
Example segment_holds_income :
  is_substring "75000.0" (application_data_segment app_user_001_record) = true.
Proof. vm_compute. reflexivity. Qed.

(** A zero income is not an error for the pipeline, but the runner's
    summary cannot divide by it. *)
Example dti_zero_income :
  dti 2000%float 0%float = Raise (ZeroDivisionError "float division by zero").
Proof. reflexivity. Qed.

(** ** The outcomes of a run *)

(** A rejected applicant mapping is not turned into a record: the
    validator's error leaves [process_loan_application] as it was raised,
    after the line of the load and nothing else has been printed. *)
Theorem rejected_application_raises
    L self pdf_path application_data w policy_text kwargs e :
  fst (load_policy_text L self pdf_path w) = Return policy_text ->
  policy_text <> "" ->
  heap w !! application_data = Some kwargs ->
  LoanApplication_new L kwargs = Raise e ->
  fst (process_loan_application L self pdf_path application_data w) = Raise e
  /\ stdout (snd (process_loan_application L self pdf_path application_data w))
     = stdout w ++ [load_message L pdf_path].
Proof.
  rewrite load_policy_text_eq. cbn [fst]. intros [= Hpol] Hne Hheap Hrej.
  rewrite process_loan_application_eq, Hpol, Hheap, Hrej. cbv zeta.
  destruct (String.eqb_spec policy_text "") as [Hempty|_]; [contradiction|].
  split; reflexivity.
Qed.

Lemma rejected_application_raises_witness :
  fst (process_loan_application (scenario_libs approved_value) test_agent
         "loan_policy.pdf" 0 (world_with (delete "monthlyDebt" app_user_001)))
  = Raise (ValidationError "LoanApplication" ["monthlyDebt"])
  /\ stdout (snd (process_loan_application (scenario_libs approved_value) test_agent
                    "loan_policy.pdf" 0 (world_with (delete "monthlyDebt" app_user_001))))
     = ["Loaded policy document: 57 characters"].
Proof.
  apply (rejected_application_raises (scenario_libs approved_value) test_agent
           "loan_policy.pdf" 0 (world_with (delete "monthlyDebt" app_user_001))
           "credit score >= 680 is low risk; low risk DTI ceiling 40%"
           (delete "monthlyDebt" app_user_001)
           (ValidationError "LoanApplication" ["monthlyDebt"]));
    [reflexivity | discriminate | reflexivity | reflexivity].
Defined.

(** A failure of the service becomes the fallback record, whose reasoning
    carries the text of the error; the prompt was sent once and is not sent
    again, and the text of the reasoning is also the line printed. *)
Theorem service_failure_gives_fallback
    L self pdf_path application_data w kwargs application prompt e :
  policy_of L pdf_path <> "" ->
  heap w !! application_data = Some kwargs ->
  LoanApplication_new L kwargs = Return application ->
  build_prompt L self (policy_of L pdf_path) application = Return prompt ->
  ChatOpenAI_invoke L (llm self) prompt = Raise e ->
  fst (process_loan_application L self pdf_path application_data w)
  = Return (fallback_record ("Error processing application: " +:+ str_exn L e))
  /\ llm_requests (snd (process_loan_application L self pdf_path application_data w))
     = llm_requests w ++ [prompt]
  /\ stdout (snd (process_loan_application L self pdf_path application_data w))
     = stdout w ++ [load_message L pdf_path;
                    "Error processing application: " +:+ str_exn L e].
Proof.
  intros Hne Hheap Hnew Hprompt Hllm.
  rewrite process_loan_application_eq. cbv zeta.
  destruct (String.eqb_spec (policy_of L pdf_path) "") as [Hempty|_]; [contradiction|].
  rewrite Hheap, Hnew, Hprompt, Hllm. unfold handled, loaded. cbn.
  rewrite <- app_assoc. repeat split.
Qed.

(** Every run asks the loader once, for the path it was given, and sends
    the service one prompt or none. *)
Theorem one_load_and_at_most_one_request L self pdf_path application_data w :
  pdf_loads (snd (process_loan_application L self pdf_path application_data w))
  = pdf_loads w ++ [pdf_path]
  /\ (llm_requests (snd (process_loan_application L self pdf_path application_data w))
      = llm_requests w
      \/ exists prompt,
           llm_requests (snd (process_loan_application L self pdf_path application_data w))
           = llm_requests w ++ [prompt]).
Proof.
  rewrite process_loan_application_eq. cbv zeta.
  destruct (String.eqb (policy_of L pdf_path) ""); [split; [reflexivity|left; reflexivity]|].
  destruct (heap w !! application_data) as [kwargs|]; [|split; [reflexivity|left; reflexivity]].
  destruct (LoanApplication_new L kwargs) as [application|e];
    [|split; [reflexivity|left; reflexivity]].
  destruct (build_prompt L self (policy_of L pdf_path) application) as [prompt|e];
    [|split; [reflexivity|left; reflexivity]].
  destruct (ChatOpenAI_invoke L (llm self) prompt) as [text|e];
    [destruct (PydanticOutputParser_parse L (output_parser self) text)|];
    (split; [reflexivity|right; exists prompt; reflexivity]).
Qed.

(** Where the call can raise. *)
Lemma raise_cases L self pdf_path application_data w e :
  fst (process_loan_application L self pdf_path application_data w) = Raise e ->
  policy_of L pdf_path <> ""
  /\ ((heap w !! application_data = None /\ exists msg, e = TypeError msg)
      \/ exists kwargs, heap w !! application_data = Some kwargs
                        /\ LoanApplication_new L kwargs = Raise e).
Proof.
  rewrite process_loan_application_eq. cbv zeta.
  destruct (String.eqb_spec (policy_of L pdf_path) "") as [Hempty|Hne]; [discriminate|].
  destruct (heap w !! application_data) as [kwargs|].
  - destruct (LoanApplication_new L kwargs) as [application|e'] eqn:Hnew.
    + unfold handled.
      destruct (build_prompt L self (policy_of L pdf_path) application) as [prompt|?];
        [|discriminate].
      destruct (ChatOpenAI_invoke L (llm self) prompt) as [text|?]; [|discriminate].
      destruct (PydanticOutputParser_parse L (output_parser self) text); discriminate.
    + intros [= <-]. split; [exact Hne|]. right. exists kwargs. split; [reflexivity|exact Hnew].
  - intros [= <-]. split; [exact Hne|]. left. split; [reflexivity|eauto].
Qed.

(** Once the validator has accepted the mapping, the call returns a record. *)
Lemma accepted_application_returns L self pdf_path application_data w kwargs application :
  heap w !! application_data = Some kwargs ->
  LoanApplication_new L kwargs = Return application ->
  exists r, fst (process_loan_application L self pdf_path application_data w) = Return r.
Proof.
  intros Hheap Hnew.
  destruct (fst (process_loan_application L self pdf_path application_data w))
    as [r|e] eqn:Hrun; [eauto|].
  destruct (raise_cases _ _ _ _ _ _ Hrun) as [_ [[Hnone _]|(kwargs' & Hsome & Hrej)]].
  - rewrite Hheap in Hnone. discriminate.
  - rewrite Hheap in Hsome. injection Hsome as <-. rewrite Hnew in Hrej. discriminate.
Qed.

(** The call raises in two cases only, both before step 3: the argument is
    not a mapping (a [TypeError]), or the validator rejects the mapping (its
    error).  Whenever the validator accepts the mapping, the call returns a
    record, whatever the service and the parser do. *)
Theorem raises_only_before_the_prompt L self pdf_path application_data w :
  (forall e,
      fst (process_loan_application L self pdf_path application_data w) = Raise e ->
      policy_of L pdf_path <> ""
      /\ ((heap w !! application_data = None /\ exists msg, e = TypeError msg)
          \/ exists kwargs, heap w !! application_data = Some kwargs
                            /\ LoanApplication_new L kwargs = Raise e))
  /\ (forall kwargs application,
        heap w !! application_data = Some kwargs ->
        LoanApplication_new L kwargs = Return application ->
        exists r,
          fst (process_loan_application L self pdf_path application_data w) = Return r).
Proof.
  split.
  - intros e. apply raise_cases.
  - intros kwargs application. apply accepted_application_returns.
Qed.

Lemma service_failure_gives_fallback_witness :
  fst (process_loan_application failing_service_libs test_agent "loan_policy.pdf" 0
         (world_with app_user_001))
  = Return (fallback_record "Error processing application: Rate limit reached for requests")
  /\ length (llm_requests
               (snd (process_loan_application failing_service_libs test_agent
                       "loan_policy.pdf" 0 (world_with app_user_001)))) = 1%nat
  /\ stdout (snd (process_loan_application failing_service_libs test_agent
                    "loan_policy.pdf" 0 (world_with app_user_001)))
     = [ "Loaded policy document: 57 characters";
         "Error processing application: Rate limit reached for requests" ].
Proof.
  destruct (service_failure_gives_fallback failing_service_libs test_agent
              "loan_policy.pdf" 0 (world_with app_user_001) app_user_001
              app_user_001_record
              [ mkMessage system
                  (system_head +:+ policy_of failing_service_libs "loan_policy.pdf"
                     +:+ system_middle
                     +:+ format_instructions_text failing_service_libs LoanDecision_schema
                     +:+ system_tail);
                mkMessage human (application_data_segment app_user_001_record) ]
              (LibraryError "RateLimitError" "Rate limit reached for requests"))
    as (Hres & Hreq & Hout);
    [discriminate | reflexivity | reflexivity
     | apply test_agent_prompt | reflexivity |].
  split; [exact Hres|]. split; [rewrite Hreq; reflexivity|exact Hout].
Defined.

Lemma raises_only_before_the_prompt_witness :
  exists r,
    fst (process_loan_application failing_service_libs test_agent "loan_policy.pdf" 0
           (world_with app_user_001)) = Return r.
Proof.
  apply (proj2 (raises_only_before_the_prompt failing_service_libs test_agent
                  "loan_policy.pdf" 0 (world_with app_user_001))
           app_user_001 app_user_001_record); reflexivity.
Defined.

(** With an initialised agent, a policy that is not empty and a mapping
    the validator accepts into a record whose two integers have at most
    4300 digits, the run sends the service exactly one prompt: the system
    message holding the policy text and the format instructions, and the
    human message holding the JSON text of the validated record. *)
Theorem accepted_application_sends_the_prompt
    L self pdf_path application_data w kwargs application :
  initialised self ->
  policy_of L pdf_path <> "" ->
  heap w !! application_data = Some kwargs ->
  LoanApplication_new L kwargs = Return application ->
  int_repr_allowed (creditScore application) = true ->
  int_repr_allowed (employmentMonths application) = true ->
  llm_requests (snd (process_loan_application L self pdf_path application_data w))
  = llm_requests w ++ [prompt_of L (policy_of L pdf_path) application].
Proof.
  intros Hself Hne Hheap Hnew Hscore Hmonths.
  rewrite process_loan_application_eq. cbv zeta.
  destruct (String.eqb_spec (policy_of L pdf_path) "") as [Hempty|_]; [contradiction|].
  rewrite Hheap, Hnew, (build_prompt_within_limit L self _ _ Hself Hscore Hmonths).
  destruct (ChatOpenAI_invoke L (llm self) _) as [text|e]; [|reflexivity].
  destruct (PydanticOutputParser_parse L (output_parser self) text); reflexivity.
Qed.

Lemma accepted_application_sends_the_prompt_witness :
  llm_requests (snd (process_loan_application failing_service_libs test_agent
                       "loan_policy.pdf" 0 (world_with app_user_001)))
  = [prompt_of failing_service_libs
       "credit score >= 680 is low risk; low risk DTI ceiling 40%" app_user_001_record].
Proof.
  apply (accepted_application_sends_the_prompt failing_service_libs test_agent
           "loan_policy.pdf" 0 (world_with app_user_001) app_user_001
           app_user_001_record test_agent_initialised);
    [discriminate | reflexivity | reflexivity | vm_compute; reflexivity ..].
Defined.

(** A document that opens but yields no text is handled as a failed load:
    the loader did not raise and the run printed that it loaded zero
    characters, yet the record returned is the one of a policy that could
    not be loaded, and nothing is sent to the service. *)
Theorem blank_document_is_a_failed_load L self pdf_path application_data w pages :
  PyPDFLoader_load L pdf_path = Return pages ->
  pages = [] \/ pages = [""] ->
  fst (process_loan_application L self pdf_path application_data w)
  = Return (fallback_record "Error loading policy document")
  /\ stdout (snd (process_loan_application L self pdf_path application_data w))
     = stdout w ++ ["Loaded policy document: 0 characters"]
  /\ llm_requests (snd (process_loan_application L self pdf_path application_data w))
     = llm_requests w.
Proof.
  intros Hload Hpages.
  assert (policy_of L pdf_path = "") as Hpol
    by (unfold policy_of; rewrite Hload; destruct Hpages as [->| ->]; reflexivity).
  assert (load_message L pdf_path = "Loaded policy document: 0 characters") as Hmsg
    by (unfold load_message; rewrite Hload; destruct Hpages as [->| ->]; reflexivity).
  rewrite process_loan_application_eq, Hpol. unfold loaded. rewrite Hmsg.
  repeat split.
Qed.

Lemma blank_document_is_a_failed_load_witness :
  fst (process_loan_application blank_document_libs test_agent "blank.pdf" 0
         (world_with app_user_001))
  = Return (fallback_record "Error loading policy document")
  /\ stdout (snd (process_loan_application blank_document_libs test_agent "blank.pdf" 0
                    (world_with app_user_001)))
     = ["Loaded policy document: 0 characters"]
  /\ llm_requests (snd (process_loan_application blank_document_libs test_agent
                          "blank.pdf" 0 (world_with app_user_001)))
     = [].
Proof.
  apply (blank_document_is_a_failed_load blank_document_libs test_agent "blank.pdf" 0
           (world_with app_user_001) []); [reflexivity | left; reflexivity].
Defined.

(** ** The constructor's choice of key *)

(** When the constructor returns an agent, a key was given as argument or
    stood in the environment; the client holds the argument's key when that
    is a non-empty string and the environment's otherwise, never an empty
    key; its model is the one asked for or "gpt-3.5-turbo"; its temperature
    is zero. *)
Theorem LoanAgent_init_client environ openai_api_key_arg model_name_arg self :
  LoanAgent_init environ openai_api_key_arg model_name_arg = Return self ->
  Some (openai_api_key (llm self))
  = (if given openai_api_key_arg then openai_api_key_arg
     else environ !! "OPENAI_API_KEY")
  /\ openai_api_key (llm self) <> ""
  /\ model_name (llm self) = default "gpt-3.5-turbo" model_name_arg
  /\ temperature (llm self) = 0.
Proof.
  unfold LoanAgent_init, given. cbv zeta.
  destruct openai_api_key_arg as [k|].
  - destruct (String.eqb_spec k "") as [->|Hk]; cbn [negb].
    + destruct (environ !! "OPENAI_API_KEY") as [k'|]; [|discriminate].
      destruct (String.eqb_spec k' "") as [->|Hk']; [discriminate|].
      intros [= <-]. cbn. auto.
    + destruct (String.eqb_spec k "") as [->|_]; [contradiction|].
      intros [= <-]. cbn. auto.
  - destruct (environ !! "OPENAI_API_KEY") as [k'|]; [|discriminate].
    destruct (String.eqb_spec k' "") as [->|Hk']; [discriminate|].
    intros [= <-]. cbn. auto.
Qed.

(** An empty key passed as argument does not hide the environment's. *)
Lemma LoanAgent_init_client_witness :
  Some (openai_api_key (llm env_agent))
  = ({[ "OPENAI_API_KEY" := "sk-env" ]} : gmap string string) !! "OPENAI_API_KEY"
  /\ openai_api_key (llm env_agent) <> ""
  /\ model_name (llm env_agent) = "gpt-3.5-turbo"
  /\ temperature (llm env_agent) = 0.
Proof.
  exact (LoanAgent_init_client {[ "OPENAI_API_KEY" := "sk-env" ]} (Some "") None
           env_agent eq_refl).
Defined.

(** ** The applicant model *)

Lemma get_field_missing {A} (coerce : PyVal -> option A) (f : string -> option PyVal) name :
  f name = None -> get_field coerce f name = None.
Proof. intros H. unfold get_field. rewrite H. reflexivity. Qed.

(** What the constructor does with the eight fields once they are read. *)
Lemma LoanApplication_new_some (L : Libs) (kwargs : gmap string PyVal) :
  forall (f1 : option string) (f2 f3 f4 : option float) (f5 f6 : option Z)
         (f7 f8 : option bool),
    f1 = get_field (coerce_str L) (fun name => kwargs !! name) "applicantId" ->
    f2 = get_field (coerce_float L) (fun name => kwargs !! name) "requestedAmount" ->
    f3 = get_field (coerce_float L) (fun name => kwargs !! name) "annualIncome" ->
    f4 = get_field (coerce_float L) (fun name => kwargs !! name) "monthlyDebt" ->
    f5 = get_field (coerce_int L) (fun name => kwargs !! name) "creditScore" ->
    f6 = get_field (coerce_int L) (fun name => kwargs !! name) "employmentMonths" ->
    f7 = get_field (coerce_bool L) (fun name => kwargs !! name) "isFirstTimeBuyer" ->
    f8 = get_field (coerce_bool L) (fun name => kwargs !! name) "isSelfEmployed" ->
    (f1 = None \/ f2 = None \/ f3 = None \/ f4 = None
     \/ f5 = None \/ f6 = None \/ f7 = None \/ f8 = None) ->
    LoanApplication_new L kwargs
    = Raise (ValidationError "LoanApplication"
               (offending "applicantId" f1 ++ offending "requestedAmount" f2
                ++ offending "annualIncome" f3 ++ offending "monthlyDebt" f4
                ++ offending "creditScore" f5 ++ offending "employmentMonths" f6
                ++ offending "isFirstTimeBuyer" f7 ++ offending "isSelfEmployed" f8)).
Proof.
  intros f1 f2 f3 f4 f5 f6 f7 f8 -> -> -> -> -> -> -> -> Hnone.
  unfold LoanApplication_new. cbv zeta.
  destruct (get_field (coerce_str L) _ "applicantId");
  destruct (get_field (coerce_float L) _ "requestedAmount");
  destruct (get_field (coerce_float L) _ "annualIncome");
  destruct (get_field (coerce_float L) _ "monthlyDebt");
  destruct (get_field (coerce_int L) _ "creditScore");
  destruct (get_field (coerce_int L) _ "employmentMonths");
  destruct (get_field (coerce_bool L) _ "isFirstTimeBuyer");
  destruct (get_field (coerce_bool L) _ "isSelfEmployed");
  try reflexivity.
  exfalso. repeat destruct Hnone as [Hnone|Hnone]; discriminate.
Qed.

(** Every declared field is required: a mapping that lacks one of the
    eight is rejected with a [ValidationError] of the model that names the
    missing field. *)
Theorem missing_field_is_rejected L (kwargs : gmap string PyVal) name :
  In name LoanApplication_fields ->
  kwargs !! name = None ->
  exists fields,
    LoanApplication_new L kwargs = Raise (ValidationError "LoanApplication" fields)
    /\ In name fields.
Proof.
  intros Hin Hmiss.
  eexists. split.
  - apply (LoanApplication_new_some L kwargs _ _ _ _ _ _ _ _
             eq_refl eq_refl eq_refl eq_refl eq_refl eq_refl eq_refl eq_refl).
    unfold LoanApplication_fields in Hin. cbn in Hin.
    repeat destruct Hin as [<-|Hin]; try contradiction;
      rewrite (get_field_missing _ (fun name => kwargs !! name) _ Hmiss); tauto.
  - unfold LoanApplication_fields in Hin. cbn in Hin.
    repeat destruct Hin as [<-|Hin]; try contradiction;
      rewrite (get_field_missing _ (fun name => kwargs !! name) _ Hmiss);
      rewrite !in_app_iff; cbn; tauto.
Qed.

Lemma missing_field_is_rejected_witness :
  exists fields,
    LoanApplication_new (scenario_libs approved_value) (delete "creditScore" app_user_001)
    = Raise (ValidationError "LoanApplication" fields)
    /\ In "creditScore" fields.
Proof.
  apply (missing_field_is_rejected (scenario_libs approved_value)
           (delete "creditScore" app_user_001) "creditScore").
  - cbn. tauto.
  - reflexivity.
Defined.

(** Keys that are not fields of the model play no part: adding one to the
    mapping, or changing its value, changes neither the verdict of the
    validator nor the record it builds. *)
Theorem other_keys_are_ignored L (kwargs : gmap string PyVal) key value :
  ~ In key LoanApplication_fields ->
  LoanApplication_new L (<[key := value]> kwargs) = LoanApplication_new L kwargs.
Proof.
  intros Hout. unfold LoanApplication_fields in Hout. cbn in Hout.
  unfold LoanApplication_new, get_field. cbv zeta.
  rewrite !lookup_insert_ne by (intros ->; tauto).
  reflexivity.
Qed.

Lemma other_keys_are_ignored_witness :
  LoanApplication_new (scenario_libs approved_value)
    (<["nickname" := PStr "Sam"]> app_user_001)
  = LoanApplication_new (scenario_libs approved_value) app_user_001.
Proof.
  apply (other_keys_are_ignored (scenario_libs approved_value) app_user_001
           "nickname" (PStr "Sam")).
  cbn. intros H. repeat destruct H as [H|H]; try discriminate; exact H.
Defined.

Lemma stub_libs_exact pages response json : exact_coercions (stub_libs pages response json).
Proof. repeat split. Qed.

(** Serialising a record with [dict()] and building a model from the
    result gives the record back, under coercions that take a value of the
    declared type as it is. *)
Theorem LoanApplication_dict_round_trip L application :
  exact_coercions L ->
  LoanApplication_new L (list_to_map (LoanApplication_dict application))
  = Return application.
Proof.
  intros (Hs & Hf & Hz & Hb). destruct application.
  unfold LoanApplication_new, get_field, LoanApplication_dict. cbn [list_to_map foldr].
  cbv zeta. cbn [applicantId requestedAmount annualIncome monthlyDebt creditScore
                 employmentMonths isFirstTimeBuyer isSelfEmployed uncurry].
  repeat (rewrite ?lookup_insert_eq, ?lookup_insert_ne by done).
  cbn [snd]. rewrite Hs, !Hf, !Hz, !Hb. reflexivity.
Qed.

Lemma LoanApplication_dict_round_trip_witness :
  LoanApplication_new (scenario_libs approved_value)
    (list_to_map (LoanApplication_dict app_user_001_record))
  = Return app_user_001_record.
Proof.
  apply (LoanApplication_dict_round_trip (scenario_libs approved_value)
           app_user_001_record).
  apply stub_libs_exact.
Defined.

(** ** The decision model *)

(** The record returned for a parsed decision is a valid [LoanDecision]
    again: validating it gives the decision back. *)
Theorem decision_record_round_trip L d :
  (forall x, coerce_str L (PStr x) = Some x) ->
  LoanDecision_validate L (PDict (decision_record d)) = inr d.
Proof.
  intros Hexact. destruct d as [s r k rules].
  apply (LoanDecision_validate_any_strings L s r k rules Hexact).
Qed.

Lemma decision_record_round_trip_witness :
  LoanDecision_validate (scenario_libs approved_value)
    (PDict (decision_record approved_decision))
  = inr approved_decision.
Proof.
  apply (decision_record_round_trip (scenario_libs approved_value) approved_decision).
  intros x. reflexivity.
Defined.

(** What the validation does with the four fields once they are read. *)
Lemma LoanDecision_validate_some (L : Libs) (d : PyDict) :
  forall (f1 f2 f3 : option string) (f4 : option (list string)),
    f1 = get_field (coerce_str L) (fun name => dict_get name d) "decision" ->
    f2 = get_field (coerce_str L) (fun name => dict_get name d) "reasoning" ->
    f3 = get_field (coerce_str L) (fun name => dict_get name d) "riskLevel" ->
    f4 = get_field (coerce_list_str L) (fun name => dict_get name d) "appliedRules" ->
    (f1 = None \/ f2 = None \/ f3 = None \/ f4 = None) ->
    LoanDecision_validate L (PDict d)
    = inl (offending "decision" f1 ++ offending "reasoning" f2
           ++ offending "riskLevel" f3 ++ offending "appliedRules" f4).
Proof.
  intros f1 f2 f3 f4 -> -> -> -> Hnone.
  unfold LoanDecision_validate. cbv zeta.
  destruct (get_field (coerce_str L) _ "decision");
  destruct (get_field (coerce_str L) _ "reasoning");
  destruct (get_field (coerce_str L) _ "riskLevel");
  destruct (get_field (coerce_list_str L) _ "appliedRules");
  try reflexivity.
  exfalso. repeat destruct Hnone as [Hnone|Hnone]; discriminate.
Qed.

(** All four fields of a decision are required: a completion whose JSON
    is not an object, or is an object that lacks decision, reasoning,
    riskLevel or appliedRules, makes the parser raise an
    [OutputParserException]. *)
Theorem incomplete_decision_is_a_parse_error L p text obj :
  parse_json L text = Return obj ->
  (forall d, obj <> PDict d)
  \/ (exists d name, obj = PDict d /\ In name LoanDecision_fields
                     /\ dict_get name d = None) ->
  exists msg, PydanticOutputParser_parse L p text = Raise (OutputParserException msg).
Proof.
  intros Hjson Hbad. unfold PydanticOutputParser_parse. rewrite Hjson.
  destruct Hbad as [Hnot|(d & name & -> & Hin & Hmiss)].
  - destruct obj; try (cbn; eauto). exfalso. eapply Hnot. reflexivity.
  - rewrite (LoanDecision_validate_some L d _ _ _ _ eq_refl eq_refl eq_refl eq_refl);
      [eauto|].
    cbn in Hin.
    repeat destruct Hin as [<-|Hin]; try contradiction;
      rewrite (get_field_missing _ (fun name => dict_get name d) _ Hmiss); tauto.
Qed.

Lemma incomplete_decision_is_a_parse_error_witness :
  exists msg,
    PydanticOutputParser_parse (scenario_libs incomplete_value)
      (output_parser test_agent) (json_text incomplete_value 2)
    = Raise (OutputParserException msg).
Proof.
  apply (incomplete_decision_is_a_parse_error (scenario_libs incomplete_value)
           (output_parser test_agent) (json_text incomplete_value 2) incomplete_value).
  - reflexivity.
  - right. eexists. exists "appliedRules".
    split; [reflexivity|]. split; [cbn; tauto|reflexivity].
Defined.

(** * The runner *)

(** ** The summary *)

Lemma run_print_eq line c : run_print line c = (Done tt, console_print line c).
Proof. reflexivity. Qed.

Lemma console_prints_stdout lines c :
  stdout (world (console_prints lines c)) = stdout (world c) ++ lines.
Proof.
  revert c. induction lines as [|line rest IH]; intros c; cbn.
  - rewrite app_nil_r. reflexivity.
  - rewrite IH. cbn. rewrite <- app_assoc. reflexivity.
Qed.

Lemma console_prints_rest lines c :
  stdin (console_prints lines c) = stdin c
  /\ written (console_prints lines c) = written c
  /\ pdf_loads (world (console_prints lines c)) = pdf_loads (world c)
  /\ llm_requests (world (console_prints lines c)) = llm_requests (world c)
  /\ heap (world (console_prints lines c)) = heap (world c).
Proof.
  revert c. induction lines as [|line rest IH]; intros c; cbn; [auto|].
  destruct (IH (console_print line c)) as (-> & -> & -> & -> & ->). auto.
Qed.

(** What the summary does, by the income. *)
Lemma display_application_summary_eq a c :
  display_application_summary a c =
  match dti (monthly_debt a) (annual_income a) with
  | Raise e => (Raised e, c)
  | Return ratio => (Done tt, console_prints (summary_lines a ratio) c)
  end.
Proof.
  unfold display_application_summary, run_bind, run_outcome.
  destruct (dti (monthly_debt a) (annual_income a)) as [ratio|e]; reflexivity.
Qed.


(** ** The input dialogue *)

Lemma only_talks_refl c : only_talks c c.
Proof.
  repeat split; try reflexivity; [exists []|exists []]; [reflexivity|].
  rewrite app_nil_r. reflexivity.
Qed.

Lemma only_talks_trans c1 c2 c3 :
  only_talks c1 c2 -> only_talks c2 c3 -> only_talks c1 c3.
Proof.
  intros (Hw & Hp & Hl & Hh & (r1 & Hr1) & (o1 & Ho1))
         (Hw' & Hp' & Hl' & Hh' & (r2 & Hr2) & (o2 & Ho2)).
  repeat split; try congruence.
  - exists (r1 ++ r2). rewrite Hr1, Hr2, app_assoc. reflexivity.
  - exists (o1 ++ o2). rewrite Ho2, Ho1, app_assoc. reflexivity.
Qed.

Lemma only_talks_print line c : only_talks c (console_print line c).
Proof.
  repeat split; [exists []; reflexivity|exists [line]; reflexivity].
Qed.

Lemma dialogue_ret {A} (a : A) : dialogue (run_ret a).
Proof. intros c. split; [apply only_talks_refl|discriminate]. Qed.

Lemma dialogue_print line : dialogue (run_print line).
Proof. intros c. split; [apply only_talks_print|discriminate]. Qed.

Lemma dialogue_outcome {A} (o : Outcome A) : dialogue (run_outcome o).
Proof.
  intros c. unfold run_outcome. destruct o; (split; [apply only_talks_refl|discriminate]).
Qed.

Lemma dialogue_exit {A} : dialogue (@sys_exit A 1).
Proof. intros c. split; [apply only_talks_refl|]. intros code [= <-]. reflexivity. Qed.

Lemma dialogue_input prompt : dialogue (input prompt).
Proof.
  intros c. unfold input. destruct (stdin c) as [|line rest] eqn:Hin; cbn.
  - split; [|unfold end_of_input; destruct (last_key c); discriminate].
    repeat split; cbn; [exists []; rewrite Hin; reflexivity|exists [prompt]; reflexivity].
  - split; [|discriminate].
    repeat split; cbn; [exists [line]; rewrite Hin; reflexivity|exists [prompt]; reflexivity].
Qed.

Lemma dialogue_bind {A B} (m : Run A) (k : A -> Run B) :
  dialogue m -> (forall a, dialogue (k a)) -> dialogue (run_bind m k).
Proof.
  intros Hm Hk c. unfold run_bind. destruct (Hm c) as [Hm1 Hm2].
  destruct (m c) as [[a|e|code|] c1]; cbn [fst snd] in *.
  - destruct (Hk a c1) as [Htalk Hexit].
    split; [eapply only_talks_trans; [exact Hm1|exact Htalk]|exact Hexit].
  - split; [exact Hm1|discriminate].
  - split; [exact Hm1|]. intros code' [= <-]. apply Hm2. reflexivity.
  - split; [exact Hm1|discriminate].
Qed.

Lemma dialogue_try_except_ValueError {A} (body : Run A) (handler : string -> Run A) :
  dialogue body -> (forall msg, dialogue (handler msg)) ->
  dialogue (try_except_ValueError body handler).
Proof.
  intros Hb Hh c. unfold try_except_ValueError. destruct (Hb c) as [Hb1 Hb2].
  destruct (body c) as [[a|e|code|] c1]; cbn [fst snd] in *; try (split; assumption).
  destruct e; try (split; [assumption|discriminate]).
  destruct (Hh msg c1) as [Htalk Hexit].
  split; [eapply only_talks_trans; [exact Hb1|exact Htalk]|exact Hexit].
Qed.

Lemma only_talks_step w w' read rest files key out :
  stdout w' = stdout w ++ out ->
  pdf_loads w' = pdf_loads w ->
  llm_requests w' = llm_requests w ->
  heap w' = heap w ->
  only_talks (mkConsole w (read ++ rest) files key) (mkConsole w' rest files key).
Proof.
  intros Hout Hp Hl Hh. repeat split; cbn; try assumption; eauto.
Qed.

(** The loop that asks for the file only talks; it exits with status 1
    only, raises nothing but the end of the input, and a path it returns is
    the path of a file that exists. *)
Lemma pdf_path_loop_spec R n :
  forall lines w files key,
    (length lines <= n)%nat ->
    only_talks (mkConsole w lines files key) (snd (pdf_path_loop R lines w files key))
    /\ (forall code, fst (pdf_path_loop R lines w files key) = Exited code -> code = 1)
    /\ (forall path, fst (pdf_path_loop R lines w files key) = Done path ->
                     path_exists R path = true)
    /\ (forall e, fst (pdf_path_loop R lines w files key) = Raised e ->
                  e = LibraryError "EOFError" "EOF when reading a line").
Proof.
  assert (forall A key, (forall code, @end_of_input A key <> Exited code)
                        /\ (forall a, @end_of_input A key <> Done a)
                        /\ (forall e, @end_of_input A key = Raised e ->
                                      e = LibraryError "EOFError" "EOF when reading a line"))
    as Hend.
  { intros A [|]; cbn; repeat split; try discriminate. intros e [= <-]. reflexivity. }
  induction n as [|n IH]; intros lines w files key Hlen.
  - destruct lines; [|cbn in Hlen; lia]. cbn [pdf_path_loop fst snd].
    destruct (Hend string key) as (H1 & H2 & H3).
    split; [|split; [|split; [|exact H3]]].
    + apply (only_talks_step w _ [] [] files key [pdf_prompt]); reflexivity.
    + intros code Hcode. destruct (H1 code Hcode).
    + intros path Hpath. destruct (H2 path Hpath).
  - destruct lines as [|line rest]; cbn [pdf_path_loop].
    { cbn [fst snd]. destruct (Hend string key) as (H1 & H2 & H3).
      split; [|split; [|split; [|exact H3]]].
      - apply (only_talks_step w _ [] [] files key [pdf_prompt]); reflexivity.
      - intros code Hcode. destruct (H1 code Hcode).
      - intros path Hpath. destruct (H2 path Hpath). }
    destruct (path_exists R (or_default (strip line) "loan_policy.pdf")) eqn:Hexists.
    { split; [|split; [discriminate|split; [|discriminate]]].
      - apply (only_talks_step w _ [line] rest files key [pdf_prompt]); reflexivity.
      - intros path [= <-]. exact Hexists. }
    destruct rest as [|answer rest'].
    { cbn [fst snd]. destruct (Hend string key) as (H1 & H2 & H3).
      split; [|split; [|split; [|exact H3]]].
      - eapply (only_talks_step w _ [line] [] files key); try reflexivity.
        cbn. rewrite <- !app_assoc. reflexivity.
      - intros code Hcode. destruct (H1 code Hcode).
      - intros path Hpath. destruct (H2 path Hpath). }
    destruct (String.eqb (lower (strip answer)) "y").
    + cbn in Hlen.
      destruct (IH rest'
                  (log_stdout "Try again? (y/n): "
                     (log_stdout ("File not found: "
                                    +:+ or_default (strip line) "loan_policy.pdf")
                        (log_stdout pdf_prompt w))) files key ltac:(lia))
        as (Htalk & Hrest).
      split; [|exact Hrest].
      eapply only_talks_trans; [|exact Htalk].
      eapply (only_talks_step w _ [line; answer] rest' files key); try reflexivity.
      cbn. rewrite <- !app_assoc. reflexivity.
    + split; [|split; [|split; discriminate]].
      * eapply (only_talks_step w _ [line; answer] rest' files key); try reflexivity.
        cbn. rewrite <- !app_assoc. reflexivity.
      * intros code [= <-]. reflexivity.
Qed.

Lemma dialogue_ask_pdf_path R : dialogue (ask_pdf_path R).
Proof.
  intros c. unfold ask_pdf_path.
  destruct (pdf_path_loop_spec R (length (stdin c)) (stdin c) (world c) (written c)
              (last_key c) ltac:(lia)) as (Htalk & Hexit & _).
  destruct c as [w lines files key]. split; assumption.
Qed.

Lemma dialogue_get_user_input R : dialogue (get_user_input R).
Proof.
  unfold get_user_input, read_application.
  repeat first
    [ apply dialogue_bind; [|intros ?]
    | apply dialogue_print
    | apply dialogue_ask_pdf_path
    | apply dialogue_input
    | apply dialogue_outcome
    | apply dialogue_ret
    | apply dialogue_exit
    | apply dialogue_try_except_ValueError; [|intros ?] ].
Qed.

Lemma ends_with_bind {A B} (P : B -> Prop) (m : Run A) (k : A -> Run B) :
  (forall a, ends_with P (k a)) -> ends_with P (run_bind m k).
Proof.
  intros Hk c b c'. unfold run_bind.
  destruct (m c) as [[a|e|code|] c1]; try discriminate. apply Hk.
Qed.

Lemma ends_with_ret {A} (P : A -> Prop) (a : A) : P a -> ends_with P (run_ret a).
Proof. intros Ha c a' c' [= <- _]. exact Ha. Qed.

Lemma ends_with_exit {A} (P : A -> Prop) code : ends_with P (@sys_exit A code).
Proof. intros c a c'. discriminate. Qed.

Lemma ends_with_try_except_ValueError {A} (P : A -> Prop) (body : Run A) handler :
  ends_with P body -> (forall msg, ends_with P (handler msg)) ->
  ends_with P (try_except_ValueError body handler).
Proof.
  intros Hb Hh c a c'. unfold try_except_ValueError.
  destruct (body c) as [[a'|e|code|] c1] eqn:Hbody.
  - intros [= <- <-]. eapply Hb. exact Hbody.
  - destruct e; try discriminate. apply Hh.
  - discriminate.
  - discriminate.
Qed.

(** The [try] block returns the path it was given. *)
Lemma read_application_path R pdf_path :
  ends_with (fun r => fst r = pdf_path) (read_application R pdf_path).
Proof.
  unfold read_application.
  repeat (apply ends_with_bind; intros ?).
  apply ends_with_ret. reflexivity.
Qed.

Lemma ends_with_bind_after {A B} (Q : A -> Prop) (P : B -> Prop)
    (m : Run A) (k : A -> Run B) :
  ends_with Q m -> (forall a, Q a -> ends_with P (k a)) -> ends_with P (run_bind m k).
Proof.
  intros Hm Hk c b c'. unfold run_bind.
  destruct (m c) as [[a|e|code|] c1] eqn:Hrun; try discriminate.
  apply Hk. eapply Hm. exact Hrun.
Qed.

Lemma ask_pdf_path_exists R :
  ends_with (fun path => path_exists R path = true) (ask_pdf_path R).
Proof.
  intros c path c' Hask. unfold ask_pdf_path in Hask.
  destruct (pdf_path_loop_spec R (length (stdin c)) (stdin c) (world c) (written c)
              (last_key c) ltac:(lia)) as (_ & _ & Hpath & _).
  apply Hpath. rewrite Hask. reflexivity.
Qed.

(** What [get_user_input] returns, it returns with the path of a file
    that exists. *)
Lemma get_user_input_path R :
  ends_with (fun r => path_exists R (fst r) = true) (get_user_input R).
Proof.
  unfold get_user_input.
  apply ends_with_bind; intros _. apply ends_with_bind; intros _.
  apply (ends_with_bind_after _ _ _ _ (ask_pdf_path_exists R)). intros path Hexists.
  repeat (apply ends_with_bind; intros _).
  apply ends_with_try_except_ValueError.
  - intros c r c' Hread.
    rewrite (read_application_path R path c r c' Hread). exact Hexists.
  - intros msg. apply ends_with_bind; intros _. apply ends_with_exit.
Qed.

Lemma raises_only_bind {A B} (Q : Exn -> Prop) (m : Run A) (k : A -> Run B) :
  raises_only Q m -> (forall a, raises_only Q (k a)) -> raises_only Q (run_bind m k).
Proof.
  intros Hm Hk c e c'. unfold run_bind.
  destruct (m c) as [[a|e'|code|] c1] eqn:Hrun; try discriminate.
  - apply Hk.
  - intros [= <- <-]. eapply Hm. exact Hrun.
Qed.

Lemma raises_only_print (Q : Exn -> Prop) line : raises_only Q (run_print line).
Proof. intros c e c'. discriminate. Qed.

Lemma raises_only_exit {A} (Q : Exn -> Prop) code : raises_only Q (@sys_exit A code).
Proof. intros c e c'. discriminate. Qed.

Lemma raises_only_try_except_ValueError {A} (body : Run A) handler :
  (forall msg, raises_only not_ValueError (handler msg)) ->
  raises_only not_ValueError (try_except_ValueError body handler).
Proof.
  intros Hh c e c'. unfold try_except_ValueError.
  destruct (body c) as [[a|e'|code|] c1]; try discriminate.
  destruct e'; try (intros [= <- _]; intros msg'; discriminate).
  apply Hh.
Qed.

Lemma raises_only_ask_pdf_path R : raises_only not_ValueError (ask_pdf_path R).
Proof.
  intros c e c' Hask. unfold ask_pdf_path in Hask.
  destruct (pdf_path_loop_spec R (length (stdin c)) (stdin c) (world c) (written c)
              (last_key c) ltac:(lia)) as (_ & _ & _ & Heof).
  rewrite (Heof e) by (rewrite Hask; reflexivity). intros msg. discriminate.
Qed.

Lemma get_user_input_no_ValueError R : raises_only not_ValueError (get_user_input R).
Proof.
  unfold get_user_input.
  repeat first
    [ apply raises_only_bind; [|intros ?]
    | apply raises_only_print
    | apply raises_only_ask_pdf_path
    | apply raises_only_exit
    | apply raises_only_try_except_ValueError; intros ? ].
Qed.

(** The key that may follow the last line is the user's, and an
    interrupt is the answer to Ctrl-C alone. *)
Lemma interruptible_ret {A} (a : A) : interruptible (run_ret a).
Proof. intros c. split; [reflexivity|discriminate]. Qed.

Lemma interruptible_print line : interruptible (run_print line).
Proof. intros c. split; [reflexivity|discriminate]. Qed.

Lemma interruptible_outcome {A} (o : Outcome A) : interruptible (run_outcome o).
Proof. intros c. destruct o; (split; [reflexivity|discriminate]). Qed.

Lemma interruptible_exit {A} code : interruptible (@sys_exit A code).
Proof. intros c. split; [reflexivity|discriminate]. Qed.

Lemma interruptible_input prompt : interruptible (input prompt).
Proof.
  intros c. unfold input. destruct (stdin c); (split; [reflexivity|]); cbn [fst].
  - destruct (last_key c); [discriminate|reflexivity].
  - discriminate.
Qed.

Lemma interruptible_bind {A B} (m : Run A) (k : A -> Run B) :
  interruptible m -> (forall a, interruptible (k a)) -> interruptible (run_bind m k).
Proof.
  intros Hm Hk c. unfold run_bind. destruct (Hm c) as [Hm1 Hm2].
  destruct (m c) as [[a|e|code|] c1]; cbn [fst snd] in *;
    try (split; [exact Hm1|discriminate]).
  - destruct (Hk a c1) as [Hk1 Hk2]. rewrite <- Hm1. split; assumption.
  - split; [exact Hm1|]. intros _. apply Hm2. reflexivity.
Qed.

Lemma interruptible_try_except_ValueError {A} (body : Run A) handler :
  interruptible body -> (forall msg, interruptible (handler msg)) ->
  interruptible (try_except_ValueError body handler).
Proof.
  intros Hb Hh c. unfold try_except_ValueError. destruct (Hb c) as [Hb1 Hb2].
  destruct (body c) as [[a|e|code|] c1]; cbn [fst snd] in *; try (split; assumption).
  destruct e; try (split; [assumption|discriminate]).
  destruct (Hh msg c1) as [Hh1 Hh2]. rewrite <- Hb1. split; assumption.
Qed.

Lemma pdf_path_loop_key R n :
  forall lines w files key,
    (length lines <= n)%nat ->
    last_key (snd (pdf_path_loop R lines w files key)) = key
    /\ (fst (pdf_path_loop R lines w files key) = Interrupted -> key = CtrlC).
Proof.
  induction n as [|n IH]; intros lines w files key Hlen.
  - destruct lines; [|cbn in Hlen; lia]. cbn. split; [reflexivity|].
    destruct key; [discriminate|reflexivity].
  - destruct lines as [|line rest]; cbn [pdf_path_loop].
    { cbn. split; [reflexivity|]. destruct key; [discriminate|reflexivity]. }
    destruct (path_exists R (or_default (strip line) "loan_policy.pdf")).
    { split; [reflexivity|discriminate]. }
    destruct rest as [|answer rest'].
    { cbn. split; [reflexivity|]. destruct key; [discriminate|reflexivity]. }
    destruct (String.eqb (lower (strip answer)) "y").
    + apply IH. cbn in Hlen. lia.
    + split; [reflexivity|discriminate].
Qed.

Lemma interruptible_ask_pdf_path R : interruptible (ask_pdf_path R).
Proof.
  intros c. unfold ask_pdf_path.
  apply (pdf_path_loop_key R (length (stdin c))). lia.
Qed.

Lemma interruptible_get_user_input R : interruptible (get_user_input R).
Proof.
  unfold get_user_input, read_application.
  repeat first
    [ apply interruptible_bind; [|intros ?]
    | apply interruptible_print
    | apply interruptible_ask_pdf_path
    | apply interruptible_input
    | apply interruptible_outcome
    | apply interruptible_ret
    | apply interruptible_exit
    | apply interruptible_try_except_ValueError; [|intros ?] ].
Qed.

(** [get_user_input] only talks: it reads lines and prints, writes no
    file, loads no document, sends nothing to the service and leaves the
    heap alone.  It exits with status 1 only; no [ValueError] leaves it; and
    a path it returns is one for which the file was found to exist. *)
Theorem get_user_input_is_a_dialogue R c :
  only_talks c (snd (get_user_input R c))
  /\ (forall code, fst (get_user_input R c) = Exited code -> code = 1)
  /\ (forall msg, fst (get_user_input R c) <> Raised (ValueError msg))
  /\ (forall pdf_path a,
        fst (get_user_input R c) = Done (pdf_path, a) -> path_exists R pdf_path = true).
Proof.
  destruct (dialogue_get_user_input R c) as [Htalk Hexit].
  split; [exact Htalk|]. split; [exact Hexit|]. split.
  - intros msg Hraised.
    destruct (get_user_input R c) as [ending c'] eqn:Hrun. cbn in Hraised. subst ending.
    exact (get_user_input_no_ValueError R c _ c' Hrun msg eq_refl).
  - intros pdf_path a Hdone.
    destruct (get_user_input R c) as [ending c'] eqn:Hrun. cbn in Hdone. subst ending.
    exact (get_user_input_path R c _ c' Hrun).
Qed.

(** The rules are printed one per line, numbered from [i]. *)
Lemma print_rules_eq rules : forall i c,
  print_rules i (map PStr rules) c = (Done tt, console_prints (rule_lines i rules) c).
Proof.
  induction rules as [|rule rest IH]; intros i c; [reflexivity|].
  cbn [map print_rules rule_lines console_prints]. unfold run_bind.
  rewrite run_print_eq. apply IH.
Qed.

Lemma console_prints_app l1 l2 c :
  console_prints (l1 ++ l2) c = console_prints l2 (console_prints l1 c).
Proof. revert c. induction l1 as [|line rest IH]; intros c; [reflexivity|apply IH]. Qed.

Lemma run_bind_print {B} line (k : unit -> Run B) c :
  run_bind (run_print line) k c = k tt (console_print line c).
Proof. reflexivity. Qed.

Lemma run_bind_return {A B} (a : A) (k : A -> Run B) c :
  run_bind (run_outcome (Return a)) k c = k a c.
Proof. reflexivity. Qed.

Lemma record_of_items s1 s2 s3 rules :
  getitem (record_of s1 s2 s3 rules) "decision" = Return (PStr s1)
  /\ getitem (record_of s1 s2 s3 rules) "reasoning" = Return (PStr s2)
  /\ getitem (record_of s1 s2 s3 rules) "riskLevel" = Return (PStr s3)
  /\ getitem (record_of s1 s2 s3 rules) "appliedRules" = Return (PList (map PStr rules)).
Proof. repeat split. Qed.

(** A record of four fields, strings all, has its JSON text. *)
Lemma json_dumps_record_of s1 s2 s3 rules :
  json_dumps (PDict (record_of s1 s2 s3 rules)) 2
  = Return (json_text (PDict (record_of s1 s2 s3 rules)) 2).
Proof.
  unfold json_dumps.
  assert (ints_allowed (PDict (record_of s1 s2 s3 rules)) = true) as ->; [|reflexivity].
  cbn [ints_allowed record_of forallb snd andb]. rewrite andb_true_r.
  induction rules as [|rule rest IH]; [reflexivity|exact IH].
Qed.

(** What [main] does with a record of four fields: it prints the result
    and the JSON text, then saves that text, unless the file cannot be
    opened. *)
Lemma report_eq R a s1 s2 s3 rules c :
  report R a (record_of s1 s2 s3 rules) c =
  let c1 := console_prints (report_lines R s1 s2 s3 rules) c in
  match open_for_write R (output_file_of a) with
  | Some e => (Raised e, c1)
  | None =>
      (Done tt,
       console_print (nl +:+ "Result saved to: " +:+ output_file_of a)
         (console_write (output_file_of a)
            (json_text (PDict (record_of s1 s2 s3 rules)) 2) c1))
  end.
Proof.
  destruct (record_of_items s1 s2 s3 rules) as (H1 & H2 & H3 & H4).
  unfold report, report_lines. cbv zeta.
  rewrite !console_prints_app.
  repeat first
    [ rewrite run_bind_print | rewrite run_bind_return
    | rewrite H1 | rewrite H2 | rewrite H3 | rewrite H4
    | progress cbn [upper_of py_len py_iter py_str] ].
  unfold run_bind at 1. rewrite print_rules_eq.
  rewrite !run_bind_print, json_dumps_record_of, run_bind_return, run_bind_print, length_map.
  unfold run_bind, write_file, output_file_of.
  destruct (open_for_write R _); reflexivity.
Qed.

(** ** The main function *)

Lemma new_dict_eq d c : new_dict d c = (Done (alloc_ref c), console_alloc d c).
Proof. reflexivity. Qed.

Lemma console_alloc_frame d c :
  stdout (world (console_alloc d c)) = stdout (world c)
  /\ stdin (console_alloc d c) = stdin c
  /\ written (console_alloc d c) = written c
  /\ pdf_loads (world (console_alloc d c)) = pdf_loads (world c)
  /\ llm_requests (world (console_alloc d c)) = llm_requests (world c)
  /\ heap (world (console_alloc d c)) !! alloc_ref c = Some d.
Proof.
  repeat split. unfold console_alloc, new_dict, alloc_ref. cbn.
  apply lookup_insert_eq.
Qed.

(** [main], case by case. *)
Lemma main_eq L R environ c :
  main L R environ c =
  match environ !! "OPENAI_API_KEY" with
  | Some k =>
      if String.eqb k "" then (Exited 1, console_prints no_key_lines c)
      else
        match get_user_input R c with
        | (Done p, c1) =>
            let c2 := console_alloc (application_data_dict (snd p)) c1 in
            match dti (monthly_debt (snd p)) (annual_income (snd p)) with
            | Raise e => failed L e c2
            | Return ratio =>
                let c3 := console_prints (summary_lines (snd p) ratio ++ agent_lines) c2 in
                match process_loan_application L (agent_for k) (fst p) (alloc_ref c1)
                        (world c3) with
                | (Raise e, w4) =>
                    failed L e (mkConsole w4 (stdin c3) (written c3) (last_key c3))
                | (Return r, w4) =>
                    match report R (snd p) r
                            (mkConsole w4 (stdin c3) (written c3) (last_key c3)) with
                    | (Raised e, c5) => failed L e c5
                    | (Interrupted, c5) => (Exited 0, c5)
                    | other => other
                    end
                end
            end
        | (Raised e, c1) => failed L e c1
        | (Exited code, c1) => (Exited code, c1)
        | (Interrupted, c1) => (Exited 0, c1)
        end
  | None => (Exited 1, console_prints no_key_lines c)
  end.
Proof.
  unfold main, try_except_KeyboardInterrupt_Exception.
  destruct (environ !! "OPENAI_API_KEY") as [k|]; [|reflexivity].
  destruct (String.eqb_spec k "") as [->|Hk]; [reflexivity|].
  unfold run_bind at 1.
  destruct (get_user_input R c) as [[p|e|code|] c1]; [|reflexivity..].
  unfold run_bind at 1. rewrite new_dict_eq.
  unfold run_bind at 1. rewrite display_application_summary_eq.
  destruct (dti (monthly_debt (snd p)) (annual_income (snd p))) as [ratio|e];
    [|reflexivity].
  rewrite !run_bind_print.
  rewrite (LoanAgent_init_with_key environ k None Hk), run_bind_return.
  rewrite run_bind_print. cbv zeta. rewrite console_prints_app.
  unfold run_bind, run_py. cbn [console_prints agent_lines world stdin written last_key].
  change {| llm := {| openai_api_key := k;
                      model_name := default "gpt-3.5-turbo" None;
                      temperature := 0 |};
            output_parser := {| pydantic_object := LoanDecision_schema |};
            main_prompt := from_messages [(system, system_template);
                                          (human, human_template)] |}
    with (agent_for k).
  destruct (process_loan_application L (agent_for k) (fst p) (alloc_ref c1) _)
    as [[r|e] w4]; [|reflexivity].
  destruct (report R (snd p) r _) as [[[]|e|code|] c5]; reflexivity.
Qed.

Lemma returned_record_fields L self pdf_path application_data w r :
  fst (process_loan_application L self pdf_path application_data w) = Return r ->
  exists s1 s2 s3 rules, r = record_of s1 s2 s3 rules.
Proof.
  intros Hrun.
  destruct (returned_record_cases _ _ _ _ _ _ Hrun) as [(d & _ & ->)|(reason & ->)].
  - exists (decision d), (reasoning d), (riskLevel d), (appliedRules d). reflexivity.
  - exists "denied", reason, "high", ["Error handling rule"]. reflexivity.
Qed.

(** Without a key in the environment (none, or an empty one) [main]
    prints its three lines and exits with status 1: no line of the input is
    read, no file is written, no document is loaded and nothing is sent to
    the service. *)
Theorem main_without_key L R environ c :
  given (environ !! "OPENAI_API_KEY") = false ->
  fst (main L R environ c) = Exited 1
  /\ stdout (world (snd (main L R environ c))) = stdout (world c) ++ no_key_lines
  /\ stdin (snd (main L R environ c)) = stdin c
  /\ written (snd (main L R environ c)) = written c
  /\ pdf_loads (world (snd (main L R environ c))) = pdf_loads (world c)
  /\ llm_requests (world (snd (main L R environ c))) = llm_requests (world c).
Proof.
  intros Hkey. rewrite main_eq. unfold given in Hkey.
  assert (match environ !! "OPENAI_API_KEY" with
          | Some k => String.eqb k "" = true
          | None => True
          end) as Hnone.
  { destruct (environ !! "OPENAI_API_KEY") as [k|]; [|exact I].
    destruct (String.eqb k ""); [reflexivity|discriminate]. }
  destruct (environ !! "OPENAI_API_KEY") as [k|]; [rewrite Hnone|];
    (split; [reflexivity|]; split; [apply console_prints_stdout|];
     destruct (console_prints_rest no_key_lines c) as (H1 & H2 & H3 & H4 & _); auto).
Qed.

Lemma main_without_key_witness :
  fst (main (scenario_libs approved_value) (stub_runtime ["loan_policy.pdf"]) ∅
         (console_with [""; "Sam"])) = Exited 1
  /\ stdout (world (snd (main (scenario_libs approved_value)
                           (stub_runtime ["loan_policy.pdf"]) ∅
                           (console_with [""; "Sam"]))))
     = no_key_lines
  /\ stdin (snd (main (scenario_libs approved_value) (stub_runtime ["loan_policy.pdf"]) ∅
                   (console_with [""; "Sam"]))) = [""; "Sam"]
  /\ written (snd (main (scenario_libs approved_value) (stub_runtime ["loan_policy.pdf"]) ∅
                     (console_with [""; "Sam"]))) = []
  /\ pdf_loads (world (snd (main (scenario_libs approved_value)
                              (stub_runtime ["loan_policy.pdf"]) ∅
                              (console_with [""; "Sam"])))) = []
  /\ llm_requests (world (snd (main (scenario_libs approved_value)
                                 (stub_runtime ["loan_policy.pdf"]) ∅
                                 (console_with [""; "Sam"])))) = [].
Proof.
  apply (main_without_key (scenario_libs approved_value) (stub_runtime ["loan_policy.pdf"])
           ∅ (console_with [""; "Sam"])).
  reflexivity.
Defined.

(** [main] lets no exception out.  It ends by returning, by exiting with
    status 1, or by exiting with status 0; and status 0 is the answer to an
    interrupt: it is met only when the user has pressed Ctrl-C. *)
Theorem main_returns_or_exits L R environ c :
  (fst (main L R environ c) = Done tt
   \/ fst (main L R environ c) = Exited 1
   \/ fst (main L R environ c) = Exited 0)
  /\ (fst (main L R environ c) = Exited 0 -> last_key c = CtrlC).
Proof.
  rewrite main_eq.
  destruct (environ !! "OPENAI_API_KEY") as [k|];
    [|split; [right; left; reflexivity|discriminate]].
  destruct (String.eqb k ""); [split; [right; left; reflexivity|discriminate]|].
  destruct (dialogue_get_user_input R c) as [_ Hexit].
  destruct (interruptible_get_user_input R c) as [_ Hkey].
  destruct (get_user_input R c) as [[p|e|code|] c1]; cbn [fst] in *.
  - cbv zeta.
    destruct (dti (monthly_debt (snd p)) (annual_income (snd p))) as [ratio|e];
      [|split; [right; left; reflexivity|discriminate]].
    destruct (process_loan_application L (agent_for k) (fst p) (alloc_ref c1) _)
      as [[r|e] w4] eqn:Hrun; [|split; [right; left; reflexivity|discriminate]].
    destruct (returned_record_fields L (agent_for k) (fst p) (alloc_ref c1) _ r
                ltac:(rewrite Hrun; reflexivity)) as (s1 & s2 & s3 & rules & ->).
    rewrite report_eq. cbv zeta.
    destruct (open_for_write R (output_file_of (snd p)));
      (split; [|discriminate]); [right; left|left]; reflexivity.
  - split; [right; left; reflexivity|discriminate].
  - rewrite (Hexit code eq_refl). split; [right; left; reflexivity|discriminate].
  - split; [right; right; reflexivity|]. intros _. apply Hkey. reflexivity.
Qed.

Lemma application_data_dict_accepted L a :
  exact_coercions L ->
  LoanApplication_new L (application_data_dict a) = Return (application_of a).
Proof.
  intros (Hs & Hf & Hz & Hb). destruct a.
  unfold LoanApplication_new, get_field, application_data_dict, application_of.
  cbn [list_to_map foldr]. cbv zeta.
  cbn [applicant_id requested_amount annual_income monthly_debt credit_score
       employment_months is_first_time is_self_employed uncurry].
  repeat (rewrite ?lookup_insert_eq, ?lookup_insert_ne by done).
  cbn [snd]. rewrite Hs, !Hf, !Hz, !Hb. reflexivity.
Qed.

(** The mapping [get_user_input] builds is one the agent's validator
    accepts, whatever was typed: its eight fields are there with values of
    the declared types (for coercions that keep such values as they are).
    So the agent, called on it, returns a record and never raises. *)
Theorem runner_mapping_is_accepted L self pdf_path a c :
  exact_coercions L ->
  LoanApplication_new L (application_data_dict a) = Return (application_of a)
  /\ exists r,
       fst (process_loan_application L self pdf_path (alloc_ref c)
              (world (console_alloc (application_data_dict a) c)))
       = Return r.
Proof.
  intros Hexact. split; [apply application_data_dict_accepted; exact Hexact|].
  apply (accepted_application_returns L self pdf_path (alloc_ref c) _
           (application_data_dict a) (application_of a)).
  - apply console_alloc_frame.
  - apply application_data_dict_accepted. exact Hexact.
Qed.



(** An income of zero stops [main] at the summary: the division raises,
    [main] prints the error and exits with status 1, and the agent is never
    called: no document is loaded, nothing is sent to the service and no
    file is written. *)
Theorem zero_income_stops_main L R environ c k pdf_path a c1 :
  environ !! "OPENAI_API_KEY" = Some k ->
  k <> "" ->
  get_user_input R c = (Done (pdf_path, a), c1) ->
  PrimFloat.eqb (annual_income a) 0%float = true ->
  fst (main L R environ c) = Exited 1
  /\ stdout (world (snd (main L R environ c)))
     = stdout (world c1) ++ [nl +:+ "Error: float division by zero"]
  /\ pdf_loads (world (snd (main L R environ c))) = pdf_loads (world c)
  /\ llm_requests (world (snd (main L R environ c))) = llm_requests (world c)
  /\ written (snd (main L R environ c)) = written c.
Proof.
  intros Hkey Hk Hinput Hzero.
  destruct (dialogue_get_user_input R c) as [(Hw & Hp & Hl & _) _].
  rewrite Hinput in Hw, Hp, Hl. cbn [snd] in Hw, Hp, Hl.
  rewrite main_eq, Hkey, Hinput.
  destruct (String.eqb_spec k "") as [->|_]; [contradiction|].
  cbn [fst snd]. unfold dti. rewrite Hzero. cbv zeta.
  repeat split; cbn; assumption.
Qed.

Lemma zero_income_stops_main_witness :
  fst (main (scenario_libs approved_value) (stub_runtime ["loan_policy.pdf"])
         test_environ (console_with zero_income_lines)) = Exited 1
  /\ stdout (world (snd (main (scenario_libs approved_value)
                           (stub_runtime ["loan_policy.pdf"]) test_environ
                           (console_with zero_income_lines))))
     = stdout (world (snd (get_user_input (stub_runtime ["loan_policy.pdf"])
                             (console_with zero_income_lines))))
       ++ [nl +:+ "Error: float division by zero"]
  /\ pdf_loads (world (snd (main (scenario_libs approved_value)
                              (stub_runtime ["loan_policy.pdf"]) test_environ
                              (console_with zero_income_lines)))) = []
  /\ llm_requests (world (snd (main (scenario_libs approved_value)
                                 (stub_runtime ["loan_policy.pdf"]) test_environ
                                 (console_with zero_income_lines)))) = []
  /\ written (snd (main (scenario_libs approved_value)
                     (stub_runtime ["loan_policy.pdf"]) test_environ
                     (console_with zero_income_lines))) = [].
Proof.
  apply (zero_income_stops_main (scenario_libs approved_value)
           (stub_runtime ["loan_policy.pdf"]) test_environ
           (console_with zero_income_lines) "sk-env" "loan_policy.pdf"
           (mkApplicationData "APP_USER_001" 250000%float 0%float 2000%float 700 24
              false false)).
  - reflexivity.
  - discriminate.
  - vm_compute. reflexivity.
  - reflexivity.
Defined.


Lemma run_bind_input {B} prompt (k : string -> Run B) w line rest files key :
  run_bind (input prompt) k (mkConsole w (line :: rest) files key)
  = k line (mkConsole (log_stdout prompt w) rest files key).
Proof. reflexivity. Qed.

Lemma try_except_ValueError_done {A} (body : Run A) handler c a c' :
  body c = (Done a, c') -> try_except_ValueError body handler c = (Done a, c').
Proof. intros H. unfold try_except_ValueError. rewrite H. reflexivity. Qed.

(** Pressing Enter at every prompt selects loan_policy.pdf and the default
    application.  For the path and the applicant's name a line of blanks
    counts as empty; for the five numbers only the empty line does, and
    each default is the number its text converts to.  The two flags are set
    by an answer of y, in either case and with blanks around it. *)
Theorem blank_answers_give_defaults
    R c line0 line1 line7 line8 rest x1 x2 x3 z1 z2 :
  stdin c = line0 :: line1 :: "" :: "" :: "" :: "" :: "" :: line7 :: line8 :: rest ->
  strip line0 = "" ->
  strip line1 = "" ->
  path_exists R "loan_policy.pdf" = true ->
  float_of_str R "250000" = Return x1 ->
  float_of_str R "75000" = Return x2 ->
  float_of_str R "2000" = Return x3 ->
  int_of_str R "700" = Return z1 ->
  int_of_str R "24" = Return z2 ->
  fst (get_user_input R c)
  = Done ("loan_policy.pdf",
          mkApplicationData "APP_USER_001" x1 x2 x3 z1 z2
            (String.eqb (lower (strip line7)) "y")
            (String.eqb (lower (strip line8)) "y"))
  /\ stdin (snd (get_user_input R c)) = rest.
Proof.
  intros Hstdin Hblank0 Hblank1 Hexists Hx1 Hx2 Hx3 Hz1 Hz2.
  destruct c as [w lines files key]. cbn [stdin] in Hstdin. subst lines.
  assert (exists w',
             get_user_input R
               (mkConsole w (line0 :: line1 :: "" :: "" :: "" :: "" :: "" :: line7
                               :: line8 :: rest) files key)
             = (Done ("loan_policy.pdf",
                      mkApplicationData "APP_USER_001" x1 x2 x3 z1 z2
                        (String.eqb (lower (strip line7)) "y")
                        (String.eqb (lower (strip line8)) "y")),
                mkConsole w' rest files key)) as [w' ->]; [|split; reflexivity].
  eexists. unfold get_user_input. rewrite !run_bind_print.
  unfold run_bind at 1. unfold ask_pdf_path, console_print.
  cbn [stdin world written last_key pdf_path_loop]. rewrite Hblank0.
  change (or_default "" "loan_policy.pdf") with "loan_policy.pdf". rewrite Hexists.
  rewrite !run_bind_print. unfold console_print. cbn [stdin world written last_key].
  apply try_except_ValueError_done.
  unfold read_application.
  rewrite !run_bind_input.
  change (or_default "" "250000") with "250000". rewrite Hx1, run_bind_return.
  rewrite run_bind_input.
  change (or_default "" "75000") with "75000". rewrite Hx2, run_bind_return.
  rewrite run_bind_input.
  change (or_default "" "2000") with "2000". rewrite Hx3, run_bind_return.
  rewrite run_bind_input.
  change (or_default "" "700") with "700". rewrite Hz1, run_bind_return.
  rewrite run_bind_input.
  change (or_default "" "24") with "24". rewrite Hz2, run_bind_return.
  rewrite !run_bind_input. rewrite Hblank1. reflexivity.
Qed.

Lemma blank_answers_give_defaults_witness :
  fst (get_user_input (stub_runtime ["loan_policy.pdf"])
         (console_with ["  "; " "; ""; ""; ""; ""; ""; " Y"; "no"; "left"]))
  = Done ("loan_policy.pdf",
          mkApplicationData "APP_USER_001" 250000%float 75000%float 2000%float 700 24
            true false)
  /\ stdin (snd (get_user_input (stub_runtime ["loan_policy.pdf"])
                   (console_with ["  "; " "; ""; ""; ""; ""; ""; " Y"; "no"; "left"])))
     = ["left"].
Proof.
  apply (blank_answers_give_defaults (stub_runtime ["loan_policy.pdf"])
           (console_with ["  "; " "; ""; ""; ""; ""; ""; " Y"; "no"; "left"])
           "  " " " " Y" "no" ["left"]); reflexivity.
Defined.


Lemma runner_mapping_is_accepted_witness :
  LoanApplication_new (scenario_libs approved_value)
    (application_data_dict default_application)
  = Return (application_of default_application)
  /\ exists r,
       fst (process_loan_application (scenario_libs approved_value) test_agent
              "loan_policy.pdf" (alloc_ref (console_with []))
              (world (console_alloc (application_data_dict default_application)
                        (console_with []))))
       = Return r.
Proof.
  apply (runner_mapping_is_accepted (scenario_libs approved_value) test_agent
           "loan_policy.pdf" default_application (console_with [])).
  apply stub_libs_exact.
Defined.


Lemma get_user_input_is_a_dialogue_witness :
  path_exists (stub_runtime ["loan_policy.pdf"]) "loan_policy.pdf" = true.
Proof.
  apply (proj2 (proj2 (proj2 (get_user_input_is_a_dialogue
                               (stub_runtime ["loan_policy.pdf"])
                               (console_with enter_nine_times))))
           "loan_policy.pdf" default_application).
  vm_compute. reflexivity.
Defined.


(** When the file asked for does not exist and the answer to "Try again?"
    is anything but y, [get_user_input] exits with status 1 having read
    those two lines only: nothing is asked about the application. *)
Theorem refusing_to_retry_exits R c line answer rest :
  stdin c = line :: answer :: rest ->
  path_exists R (or_default (strip line) "loan_policy.pdf") = false ->
  lower (strip answer) <> "y" ->
  fst (get_user_input R c) = Exited 1
  /\ stdin (snd (get_user_input R c)) = rest
  /\ List.last (stdout (world (snd (get_user_input R c)))) "" = "Try again? (y/n): ".
Proof.
  intros Hstdin Hmissing Hanswer.
  destruct c as [w lines files key]. cbn [stdin] in Hstdin. subst lines.
  unfold get_user_input.
  rewrite !run_bind_print. unfold run_bind, ask_pdf_path, console_print.
  cbn [stdin world written last_key pdf_path_loop]. rewrite Hmissing.
  destruct (String.eqb_spec (lower (strip answer)) "y") as [Hy|_]; [contradiction|].
  cbn [fst snd stdin world stdout log_stdout].
  split; [reflexivity|]. split; [reflexivity|]. apply List.last_last.
Qed.

Lemma refusing_to_retry_exits_witness :
  fst (get_user_input (stub_runtime ["loan_policy.pdf"])
         (console_with ["rules.pdf"; "no"; "Sam"])) = Exited 1
  /\ stdin (snd (get_user_input (stub_runtime ["loan_policy.pdf"])
                   (console_with ["rules.pdf"; "no"; "Sam"]))) = ["Sam"]
  /\ List.last (stdout (world (snd (get_user_input (stub_runtime ["loan_policy.pdf"])
                                      (console_with ["rules.pdf"; "no"; "Sam"]))))) ""
     = "Try again? (y/n): ".
Proof.
  apply (refusing_to_retry_exits (stub_runtime ["loan_policy.pdf"])
           (console_with ["rules.pdf"; "no"; "Sam"]) "rules.pdf" "no" ["Sam"]);
    [reflexivity | reflexivity | discriminate].
Defined.

(** A requested amount that is no number ends the dialogue: the
    conversion raises [ValueError], [get_user_input] prints "Invalid input:"
    with the error's text and exits with status 1, and the questions that
    remain are not asked. *)
Theorem invalid_amount_exits R c line0 line1 line2 rest msg :
  stdin c = line0 :: line1 :: line2 :: rest ->
  path_exists R (or_default (strip line0) "loan_policy.pdf") = true ->
  float_of_str R (or_default line2 "250000") = Raise (ValueError msg) ->
  fst (get_user_input R c) = Exited 1
  /\ stdin (snd (get_user_input R c)) = rest
  /\ List.last (stdout (world (snd (get_user_input R c)))) "" = "Invalid input: " +:+ msg.
Proof.
  intros Hstdin Hexists Hbad.
  destruct c as [w lines files key]. cbn [stdin] in Hstdin. subst lines.
  assert (exists out,
             get_user_input R (mkConsole w (line0 :: line1 :: line2 :: rest) files key)
             = (Exited 1,
                mkConsole (log_stdout ("Invalid input: " +:+ msg) out) rest files key))
    as [out ->]; [|split; [reflexivity|split; [reflexivity|apply List.last_last]]].
  eexists. unfold get_user_input. rewrite !run_bind_print.
  unfold run_bind at 1. unfold ask_pdf_path, console_print.
  cbn [stdin world written last_key pdf_path_loop]. rewrite Hexists.
  rewrite !run_bind_print. unfold console_print. cbn [stdin world written last_key].
  unfold try_except_ValueError, read_application.
  rewrite !run_bind_input, Hbad.
  reflexivity.
Qed.

Lemma invalid_amount_exits_witness :
  fst (get_user_input (stub_runtime ["loan_policy.pdf"])
         (console_with [""; "Sam"; "a lot"; "75000"])) = Exited 1
  /\ stdin (snd (get_user_input (stub_runtime ["loan_policy.pdf"])
                   (console_with [""; "Sam"; "a lot"; "75000"]))) = ["75000"]
  /\ List.last (stdout (world (snd (get_user_input (stub_runtime ["loan_policy.pdf"])
                                      (console_with [""; "Sam"; "a lot"; "75000"]))))) ""
     = "Invalid input: " +:+ "could not convert string to float: 'a lot'".
Proof.
  apply (invalid_amount_exits (stub_runtime ["loan_policy.pdf"])
           (console_with [""; "Sam"; "a lot"; "75000"]) "" "Sam" "a lot" ["75000"]);
    reflexivity.
Defined.

(** ** Integers too long to be written *)

(** A mapping the validator accepts into a record one of whose integers
    has more than 4300 digits is not sent to the service: serialising the
    record raises inside step 3, and the run returns the fallback record of
    step 3, with the error's text for its reason. *)
Theorem oversized_integer_gives_fallback
    L self pdf_path application_data w kwargs application :
  policy_of L pdf_path <> "" ->
  heap w !! application_data = Some kwargs ->
  LoanApplication_new L kwargs = Return application ->
  int_repr_allowed (creditScore application)
  && int_repr_allowed (employmentMonths application) = false ->
  json_dumps (PDict (LoanApplication_dict application)) 2 = Raise int_repr_error
  /\ (exists msg,
        fst (process_loan_application L self pdf_path application_data w)
        = Return (fallback_record ("Error processing application: " +:+ msg)))
  /\ llm_requests (snd (process_loan_application L self pdf_path application_data w))
     = llm_requests w.
Proof.
  intros Hne Hheap Hnew Hlong.
  assert (json_dumps (PDict (LoanApplication_dict application)) 2 = Raise int_repr_error)
    as Hjson by (rewrite json_dumps_application, Hlong; reflexivity).
  split; [exact Hjson|].
  rewrite process_loan_application_eq. cbv zeta.
  destruct (String.eqb_spec (policy_of L pdf_path) "") as [Hempty|_]; [contradiction|].
  rewrite Hheap, Hnew. unfold build_prompt. rewrite Hjson.
  split; [eexists; reflexivity|reflexivity].
Qed.

Lemma oversized_integer_gives_fallback_witness :
  json_dumps
    (PDict (LoanApplication_dict
              (mkLoanApplication "APP_USER_001" 250000%float 75000%float 2000%float
                 oversized_score 24 false false))) 2
  = Raise int_repr_error
  /\ (exists msg,
        fst (process_loan_application (scenario_libs approved_value) test_agent
               "loan_policy.pdf" 0 (world_with app_oversized))
        = Return (fallback_record ("Error processing application: " +:+ msg)))
  /\ llm_requests (snd (process_loan_application (scenario_libs approved_value) test_agent
                          "loan_policy.pdf" 0 (world_with app_oversized)))
     = llm_requests (world_with app_oversized).
Proof.
  apply (oversized_integer_gives_fallback (scenario_libs approved_value) test_agent
           "loan_policy.pdf" 0 (world_with app_oversized) app_oversized
           (mkLoanApplication "APP_USER_001" 250000%float 75000%float 2000%float
              oversized_score 24 false false));
    [discriminate | reflexivity | vm_compute; reflexivity | vm_compute; reflexivity].
Defined.

(** ** An interrupt from the keyboard *)

(** When the user presses Ctrl-C during the input dialogue, [main] exits
    with status 0 and prints no error: the console is as the dialogue left
    it, so no file is written, no document is loaded and nothing is sent to
    the service.  Ctrl-C at the first prompt, before any line is typed, is
    such an interrupt. *)
Theorem interrupted_dialogue_exits_with_0 L R environ c k :
  environ !! "OPENAI_API_KEY" = Some k ->
  k <> "" ->
  (forall c1,
      get_user_input R c = (Interrupted, c1) ->
      main L R environ c = (Exited 0, c1)
      /\ written c1 = written c
      /\ pdf_loads (world c1) = pdf_loads (world c)
      /\ llm_requests (world c1) = llm_requests (world c))
  /\ (stdin c = [] -> last_key c = CtrlC -> fst (get_user_input R c) = Interrupted).
Proof.
  intros Hkey Hk. split.
  - intros c1 Hinput.
    destruct (dialogue_get_user_input R c) as [(Hw & Hp & Hl & _) _].
    rewrite Hinput in Hw, Hp, Hl. cbn [snd] in Hw, Hp, Hl.
    rewrite main_eq, Hkey, Hinput.
    destruct (String.eqb_spec k "") as [->|_]; [contradiction|].
    repeat split; assumption.
  - intros Hstdin Hctrl. destruct c as [w lines files key].
    cbn [stdin last_key] in Hstdin, Hctrl. subst lines key. reflexivity.
Qed.

Lemma interrupted_dialogue_exits_with_0_witness :
  fst (get_user_input (stub_runtime ["loan_policy.pdf"]) (console_interrupted []))
  = Interrupted
  /\ fst (main (scenario_libs approved_value) (stub_runtime ["loan_policy.pdf"])
            test_environ (console_interrupted []))
     = Exited 0.
Proof.
  destruct (interrupted_dialogue_exits_with_0 (scenario_libs approved_value)
              (stub_runtime ["loan_policy.pdf"]) test_environ
              (console_interrupted []) "sk-env" eq_refl ltac:(discriminate))
    as [Hmain Hfirst].
  split; [apply Hfirst; reflexivity|].
  rewrite (proj1 (Hmain (snd (get_user_input (stub_runtime ["loan_policy.pdf"])
                                (console_interrupted [])))
                    eq_refl)).
  reflexivity.
Defined.

(** Ctrl-C in the middle of the questions: [main] exits with status 0
    after three answers, with the fourth question asked. *)
Example interrupt_after_three_answers :
  fst (main (scenario_libs approved_value) (stub_runtime ["loan_policy.pdf"]) test_environ
         (console_interrupted [""; "Sam"; "100000"]))
  = Exited 0
  /\ List.last (stdout (world (snd (main (scenario_libs approved_value)
                                     (stub_runtime ["loan_policy.pdf"]) test_environ
                                     (console_interrupted [""; "Sam"; "100000"]))))) ""
     = "Annual Income ($): "
  /\ written (snd (main (scenario_libs approved_value) (stub_runtime ["loan_policy.pdf"])
                     test_environ (console_interrupted [""; "Sam"; "100000"]))) = [].
Proof. vm_compute. repeat split. Qed.

(** The same lines with the input closed instead: the read raises
    [EOFError], and [main] prints the error and exits with status 1. *)
Example end_of_input_after_three_answers :
  fst (main (scenario_libs approved_value) (stub_runtime ["loan_policy.pdf"]) test_environ
         (console_with [""; "Sam"; "100000"]))
  = Exited 1
  /\ List.last (stdout (world (snd (main (scenario_libs approved_value)
                                     (stub_runtime ["loan_policy.pdf"]) test_environ
                                     (console_with [""; "Sam"; "100000"]))))) ""
     = nl +:+ "Error: EOF when reading a line".
Proof. vm_compute. repeat split. Qed.
